(** * SQLAIBot: the text-to-SQL query/repair workflow of [sql_agent.py]

    A shallow embedding of the LangGraph workflow built by
    [create_sql_agent] and driven by [main], together with the properties
    the specification states about it.

    - Python [str] values are [string]s; one [ascii] stands for one code
      point below 256.
    - The state dict ([SQLState]) is a [gmap string string]: a key is
      either absent or bound to a string, exactly as in the dict the graph
      hands to every node and to every branch function.
    - The language model, the SQL chain and the schema reader are external
      collaborators. They are parameters of the development, threaded
      through an explicit [World]; every call to one of them is recorded in
      a trace so that "which statements were run" is a statement about the
      code and not about intentions. *)

From Stdlib Require Import String Ascii List Bool Arith Lia.
From stdpp Require Import base option list strings gmap fin_maps.

Open Scope string_scope.
Import ListNotations.

(** ** Python string primitives used by the nodes *)

Module PyStr.

Definition nl : string := String (ascii_of_nat 10) "".

(** [str.isspace] on one code point below 256: TAB..CR, FS..US, space,
    NEL and NBSP. *)
Definition is_space (c : ascii) : bool :=
  let n := nat_of_ascii c in
  (Nat.leb 9 n && Nat.leb n 13) || (Nat.leb 28 n && Nat.leb n 32)
  || Nat.eqb n 133 || Nat.eqb n 160.

(** Truthiness of a string: [bool(s)]. *)
Definition truthy (s : string) : bool :=
  match s with EmptyString => false | String _ _ => true end.

Fixpoint lstrip (s : string) : string :=
  match s with
  | EmptyString => EmptyString
  | String c s' => if is_space c then lstrip s' else s
  end.

Fixpoint rstrip (s : string) : string :=
  match s with
  | EmptyString => EmptyString
  | String c s' =>
      match rstrip s' with
      | EmptyString => if is_space c then EmptyString else String c EmptyString
      | r => String c r
      end
  end.

(** [s.strip()] *)
Definition strip (s : string) : string := rstrip (lstrip s).

(** [s.split(sep)] for a one-character separator: always at least one
    fragment, empty fragments kept. *)
Fixpoint split (sep : ascii) (s : string) : list string :=
  match s with
  | EmptyString => [EmptyString]
  | String c s' =>
      if Ascii.eqb c sep then EmptyString :: split sep s'
      else match split sep s' with
           | [] => [String c EmptyString]
           | frag :: frags => String c frag :: frags
           end
  end.

(** [sep.join(parts)] *)
Fixpoint join (sep : string) (parts : list string) : string :=
  match parts with
  | [] => EmptyString
  | [p] => p
  | p :: ps => p ++ sep ++ join sep ps
  end.

(** [c in s] for a character. *)
Fixpoint contains (c : ascii) (s : string) : bool :=
  match s with
  | EmptyString => false
  | String d s' => Ascii.eqb d c || contains c s'
  end.

(** [str.lower] on one code point below 256: the letters A..Z and the
    capital letters of Latin-1 (all of À..Þ but the multiplication sign)
    move 32 places up; everything else stays. *)
Definition lower_char (c : ascii) : ascii :=
  let n := nat_of_ascii c in
  if (Nat.leb 65 n && Nat.leb n 90)
     || (Nat.leb 192 n && Nat.leb n 222 && negb (Nat.eqb n 215))
  then ascii_of_nat (n + 32) else c.

(** [s.lower()] *)
Fixpoint lower (s : string) : string :=
  match s with
  | EmptyString => EmptyString
  | String c s' => String (lower_char c) (lower s')
  end.

End PyStr.

(** ** Prompts *)

Definition QUERY_PROMPT (schema query : string) : string :=
  "You are a SQL query generator. Given a natural language question, generate a SQL query that answers it."
  ++ PyStr.nl ++ "Database schema: " ++ schema
  ++ PyStr.nl ++ "Question: " ++ query
  ++ PyStr.nl ++ "Generated SQL query:".

Definition EXPLANATION_PROMPT (sql : string) : string :=
  "Explain the SQL query in simple terms:"
  ++ PyStr.nl ++ "Query: " ++ sql
  ++ PyStr.nl ++ "Explanation:".

Definition ERROR_HANDLING_PROMPT (error schema query sql : string) : string :=
  "The previous query failed with error: " ++ error
  ++ PyStr.nl ++ "Please analyze the error and generate a corrected SQL query."
  ++ PyStr.nl ++ "Database schema: " ++ schema
  ++ PyStr.nl ++ "Original question: " ++ query
  ++ PyStr.nl ++ "Failed query: " ++ sql
  ++ PyStr.nl ++ "Corrected SQL query:".

(** ** The graph's vocabulary *)

(** The five nodes added by [create_sql_agent]. *)
Inductive Node : Type :=
  | generate_sql | run_query | explain_query | handle_error | final_error.

Definition node_name (n : Node) : string :=
  match n with
  | generate_sql => "generate_sql"
  | run_query => "run_query"
  | explain_query => "explain_query"
  | handle_error => "handle_error"
  | final_error => "final_error"
  end.

#[global] Instance Node_eq_dec : EqDecision Node.
Proof. solve_decision. Defined.

(** Where an edge leads: another node or [END]. *)
Inductive Target : Type :=
  | Goto (n : Node)
  | END.

(** Exceptions that can leave a node or the graph runner. *)
Inductive Exn : Type :=
  | KeyError (key : string)
  | GraphRecursionError.

(** What one statement handed to [db_chain.run] does: it returns text or
    raises, [str(e)] being the message. *)
Inductive DbOutcome : Type :=
  | Rows (text : string)
  | DbRaise (msg : string).

(** The log of a run: node activations with the state dict the node was
    handed, and calls to the collaborators with what they answered, in the
    order in which they happen. *)
Inductive Event : Type :=
  | EvNode (n : Node) (state : gmap string string)
  | EvLLM (prompt content : string)
  | EvDb (stmt : string) (out : DbOutcome)
  | EvSchema (info : string).

Inductive Res (A : Type) : Type :=
  | Ok (a : A)
  | Raise (e : Exn).
Arguments Ok {A} a.
Arguments Raise {A} e.

(** ** The workflow, over arbitrary collaborators *)

Section Workflow.

(** State of everything outside the program: the model's sampler, the
    database contents. *)
Variable World : Type.

(** [llm.invoke(messages).content] for a single system message. *)
Variable llm_invoke : string -> World -> string * World.

(** [db_chain.run(stmt)] *)
Variable db_chain_run : string -> World -> DbOutcome * World.

(** [db.get_table_info()] *)
Variable get_table_info : World -> string * World.

Record Env : Type := mkEnv { world : World; trace : list Event }.

(** Computations of the program: they read and change the world, extend
    the trace, and either return or raise. *)
Definition M (A : Type) : Type := Env -> Res A * Env.

Definition ret {A} (a : A) : M A := fun e => (Ok a, e).

Definition raise {A} (x : Exn) : M A := fun e => (Raise x, e).

Definition bind {A B} (m : M A) (k : A -> M B) : M B :=
  fun e =>
    match m e with
    | (Ok a, e') => k a e'
    | (Raise x, e') => (Raise x, e')
    end.

Local Notation "'let*' x ':=' m 'in' k" := (bind m (fun x => k))
  (at level 10, x name, m at level 100, k at level 200).

Definition emit (ev : Event) : M unit :=
  fun e => (Ok tt, mkEnv (world e) (trace e ++ [ev])).

Definition llm (prompt : string) : M string :=
  fun e =>
    let (content, w) := llm_invoke prompt (world e) in
    (Ok content, mkEnv w (trace e ++ [EvLLM prompt content])).

Definition db_run (stmt : string) : M DbOutcome :=
  fun e =>
    let (out, w) := db_chain_run stmt (world e) in
    (Ok out, mkEnv w (trace e ++ [EvDb stmt out])).

(** [get_schema()] *)
Definition get_schema : M string :=
  fun e =>
    let (info, w) := get_table_info (world e) in
    (Ok info, mkEnv w (trace e ++ [EvSchema info])).

(** [d[key]]: raises [KeyError] on an absent key. *)
Definition getitem (d : gmap string string) (key : string) : M string :=
  match d !! key with
  | Some v => ret v
  | None => raise (KeyError key)
  end.

(** [key in d] *)
Definition contains_key (key : string) (d : gmap string string) : bool :=
  match d !! key with
  | Some _ => true
  | None => false
  end.

(** [SQLState(query=..., sql=..., ...)]: a dict with all six keys. *)
Definition SQLState (query sql result explanation schema error : string)
  : gmap string string :=
  {[ "query" := query; "sql" := sql; "result" := result;
     "explanation" := explanation; "schema" := schema; "error" := error ]}.

(** *** Nodes. Each returns the partial dict it wants merged. *)

(** [state.get('schema', get_schema())]: Python evaluates the default
    before the lookup, so the schema is read from the database whether or
    not the key is present. *)
Definition schema_of (state : gmap string string) : M string :=
  let* fetched := get_schema in
  ret (default fetched (state !! "schema")).

Definition query_node (state : gmap string string) : M (gmap string string) :=
  let* schema := schema_of state in
  let* query := getitem state "query" in
  let* content := llm (QUERY_PROMPT schema query) in
  let sql := PyStr.strip content in
  if PyStr.truthy sql then ret {[ "sql" := sql ]}
  else ret {[ "error" := "No SQL query generated" ]}.

(** The statements [execute_node] iterates over. *)
Definition statements (sql : string) : list string :=
  List.map PyStr.strip
    (List.filter (fun stmt => PyStr.truthy (PyStr.strip stmt))
                 (PyStr.split ";" sql)).

(** The [for stmt in statements] loop, [results] being the list built so
    far. *)
Fixpoint run_statements (stmts results : list string)
  : M (gmap string string) :=
  match stmts with
  | [] => ret {[ "result" := PyStr.join PyStr.nl results ]}
  | stmt :: rest =>
      let* out := db_run stmt in
      match out with
      | Rows result => run_statements rest (results ++ [result])
      | DbRaise msg =>
          ret {[ "error" := "Error executing statement: " ++ stmt
                             ++ PyStr.nl ++ "Error: " ++ msg ]}
      end
  end.

(** The outer [try] turns the [KeyError] of [state['sql']] into an error
    entry; [str(KeyError('sql'))] is the quoted key. *)
Definition execute_node (state : gmap string string)
  : M (gmap string string) :=
  match state !! "sql" with
  | Some sql => run_statements (statements sql) []
  | None => ret {[ "error" := "'sql'" ]}
  end.

Definition explain_node (state : gmap string string)
  : M (gmap string string) :=
  let* sql := getitem state "sql" in
  let* content := llm (EXPLANATION_PROMPT sql) in
  ret {[ "explanation" := content ]}.

Definition error_handling_node (state : gmap string string)
  : M (gmap string string) :=
  let* schema := schema_of state in
  let* error := getitem state "error" in
  let* query := getitem state "query" in
  let* failed := getitem state "sql" in
  let* content := llm (ERROR_HANDLING_PROMPT error schema query failed) in
  let sql := PyStr.strip content in
  if PyStr.truthy sql then ret {[ "sql" := sql ]}
  else ret {[ "error" := "Failed to generate corrected query" ]}.

(** The lambda registered as ["final_error"]. *)
Definition final_error_node (state : gmap string string)
  : M (gmap string string) :=
  ret {[ "error" := "Final error: " ++ default "Unknown error" (state !! "error") ]}.

(** *** The graph *)

(** [channels] are the keys of the class the graph is built on, here
    [StateGraph(SQLState)]: the runner keeps one channel per annotated key,
    and the state is what these channels hold. *)
Record CompiledGraph : Type := mkGraph {
  channels : list string;
  entry_point : Node;
  action : Node -> gmap string string -> M (gmap string string);
  edge : Node -> gmap string string -> Target
}.

Definition create_sql_agent : CompiledGraph :=
  {| channels := ["query"; "sql"; "result"; "explanation"; "schema"; "error"];
     entry_point := generate_sql;
     action := fun n =>
       match n with
       | generate_sql => query_node
       | run_query => execute_node
       | explain_query => explain_node
       | handle_error => error_handling_node
       | final_error => final_error_node
       end;
     edge := fun n state =>
       match n with
       | generate_sql => Goto run_query
       | run_query =>
           if contains_key "error" state then Goto handle_error
           else Goto explain_query
       | handle_error =>
           if contains_key "error" state then Goto final_error
           else Goto run_query
       | explain_query => END
       | final_error => END
       end |}.

(** One node activation per unit of [fuel]: the node runs on the current
    state, its dict is merged over the state (keys it returns replace the
    old values, every other key is kept), and the outgoing edge is chosen
    on the merged state. *)
Fixpoint run (g : CompiledGraph) (fuel : nat) (n : Node)
         (state : gmap string string) : M (gmap string string) :=
  match fuel with
  | O => raise GraphRecursionError
  | S fuel' =>
      let* _ := emit (EvNode n state) in
      let* update := action g n state in
      let state' := update ∪ state in
      match edge g n state' with
      | END => ret state'
      | Goto n' => run g fuel' n' state'
      end
  end.

(** The runner's default bound on activations. *)
Definition recursion_limit : nat := 25.

(** What the runner takes from the dict it is invoked on: the entries whose
    key is a channel. Any other entry is dropped, so that no node sees it
    and it is not in the dict returned. *)
Definition read_input (g : CompiledGraph) (state : gmap string string)
  : gmap string string :=
  filter (fun entry => entry.1 ∈ channels g) state.

(** [agent.invoke(state)] *)
Definition invoke (g : CompiledGraph) (state : gmap string string)
  : M (gmap string string) :=
  run g recursion_limit (entry_point g) (read_input g state).

(** [answered w evs w']: [evs] logs database calls made one after the
    other from world [w], each with what the database really answered,
    and leaves the world at [w']. *)
Inductive answered : World -> list Event -> World -> Prop :=
  | answered_nil w : answered w [] w
  | answered_cons w stmt out w1 evs w2 :
      db_chain_run stmt w = (out, w1) ->
      answered w1 evs w2 ->
      answered w (EvDb stmt out :: evs) w2.

(** *** One turn of [main]'s loop for a question

    The question is the line read from the terminal, already stripped and
    neither [quit] nor [exit]. The turn builds the initial state and
    invokes the agent; an exception would leave the loop. *)

Definition main_state (query : string) : M (gmap string string) :=
  let* schema := get_schema in
  ret (SQLState query "" "" "" schema "").

Definition main_turn (query : string) : M (gmap string string) :=
  let* state := main_state query in
  invoke create_sql_agent state.

(** A run starts with an empty log. *)
Definition start (w : World) : Env := mkEnv w [].

(** What [agent.invoke(state)] gives back (a dict, or an exception) and
    the log it leaves, from an arbitrary state and for a turn of [main]. *)
Definition run_outcome (state : gmap string string) (w : World)
  : Res (gmap string string) :=
  fst (invoke create_sql_agent state (start w)).

Definition run_log (state : gmap string string) (w : World) : list Event :=
  trace (snd (invoke create_sql_agent state (start w))).

Definition turn_outcome (query : string) (w : World)
  : Res (gmap string string) :=
  fst (main_turn query (start w)).

Definition turn_log (query : string) (w : World) : list Event :=
  trace (snd (main_turn query (start w))).

(** The world a turn leaves behind, in which a second turn would start. *)
Definition turn_world (query : string) (w : World) : World :=
  world (snd (main_turn query (start w))).

(** A computation is oblivious when what it returns (or raises) is the same
    from every world and log. *)
Definition oblivious {A} (m : M A) : Prop :=
  forall e1 e2 : Env, fst (m e1) = fst (m e2).

(** What [main] prints for a returned dict. *)
Definition shown (result : gmap string string) (key label : string)
  : list string :=
  match result !! key with
  | Some v => if PyStr.truthy v then [label ++ " " ++ v] else []
  | None => []
  end.

Definition main_display (result : gmap string string) : list string :=
  shown result "sql" (PyStr.nl ++ "Generated SQL:")
  ++ shown result "explanation" (PyStr.nl ++ "Explanation:")
  ++ shown result "result" (PyStr.nl ++ "Result:")
  ++ match result !! "error" with
     | Some v =>
         if PyStr.truthy v && negb (String.eqb v "Final error: ")
         then [PyStr.nl ++ "Error: " ++ v] else []
     | None => []
     end.

End Workflow.

Arguments mkEnv {World} world trace.
Arguments world {World} e.
Arguments trace {World} e.
Arguments answered {World} db_chain_run w evs w'.
Arguments start {World} w.

(** ** Reading a log *)

(** The nodes activated, in order. *)
Definition activations (log : list Event) : list Node :=
  omap (fun ev => match ev with EvNode n _ => Some n | _ => None end) log.

(** The state dicts handed to node [n], in order. *)
Definition handed (n : Node) (log : list Event) : list (gmap string string) :=
  omap (fun ev =>
          match ev with
          | EvNode m state => if decide (m = n) then Some state else None
          | _ => None
          end) log.

(** The prompts sent to the model and its replies, in order. *)
Definition llm_prompts (log : list Event) : list string :=
  omap (fun ev => match ev with EvLLM prompt _ => Some prompt | _ => None end) log.

Definition llm_replies (log : list Event) : list string :=
  omap (fun ev => match ev with EvLLM _ content => Some content | _ => None end) log.

(** The statements run against the database, in order, and the messages of
    those that raised. *)
Definition executed (log : list Event) : list string :=
  omap (fun ev => match ev with EvDb stmt _ => Some stmt | _ => None end) log.

Definition db_errors (log : list Event) : list string :=
  omap (fun ev => match ev with EvDb _ (DbRaise msg) => Some msg | _ => None end) log.

(** The schema texts read from the database, in order. *)
Definition schema_fetches (log : list Event) : list string :=
  omap (fun ev => match ev with EvSchema info => Some info | _ => None end) log.

(** Every state dict handed to a node, whichever the node. *)
Definition node_states (log : list Event) : list (gmap string string) :=
  omap (fun ev => match ev with EvNode _ state => Some state | _ => None end) log.

(** In a turn the model is asked first for the query and, if the repair
    step runs, a second time for the corrected query. *)
Definition generation_reply (log : list Event) : option string :=
  llm_replies log !! 0%nat.

Definition repair_reply (log : list Event) : option string :=
  llm_replies log !! 1%nat.

(** The error kinds of the specification, read off a log. *)
Inductive ErrorKind : Type :=
  | EmptyGeneration
  | ExecutionFailure
  | RepairExhausted.

Definition occurs (kind : ErrorKind) (log : list Event) : Prop :=
  match kind with
  | EmptyGeneration =>
      exists content, generation_reply log = Some content
                      /\ PyStr.strip content = ""
  | ExecutionFailure => db_errors log <> []
  | RepairExhausted =>
      exists content, repair_reply log = Some content
                      /\ PyStr.strip content = ""
  end.


(** ** What an execution attempt is expected to do with its statements *)

(** The log of statements that all returned rows. *)
Definition all_rows (stmts outs : list string) : list Event :=
  zip_with (fun stmt out => EvDb stmt (Rows out)) stmts outs.

(** [exec_outcome stmts evs upd]: either every statement of [stmts] was run
    in order and returned rows, and [upd] holds the outputs joined by
    newlines; or the statements before the first failing one were run, then
    the failing one, nothing after it, and [upd] holds an error naming that
    statement and the database's message. *)
Inductive exec_outcome (stmts : list string)
  : list Event -> gmap string string -> Prop :=
  | exec_all outs :
      length outs = length stmts ->
      exec_outcome stmts (all_rows stmts outs)
                   {[ "result" := PyStr.join PyStr.nl outs ]}
  | exec_stop (before : list string) stmt rest outs msg :
      stmts = (before ++ stmt :: rest)%list ->
      length outs = length before ->
      exec_outcome stmts
                   (all_rows before outs ++ [EvDb stmt (DbRaise msg)])%list
                   {[ "error" := "Error executing statement: " ++ stmt
                                  ++ PyStr.nl ++ "Error: " ++ msg ]}.

(** ** Stand-ins for the collaborators, for concrete runs *)

Module Stub.

(** The world is the script of replies the model has yet to give. *)
Definition World : Type := list string.

Definition llm_invoke (prompt : string) (w : World) : string * World :=
  match w with
  | [] => ("", [])
  | reply :: w' => (reply, w')
  end.

(** A database that accepts exactly the statements starting with SELECT. *)
Definition db_chain_run (stmt : string) (w : World) : DbOutcome * World :=
  (if String.prefix "SELECT" stmt then Rows ("rows(" ++ stmt ++ ")")
   else DbRaise "syntax error", w).

Definition get_table_info (w : World) : string * World :=
  ("CREATE TABLE t (x INT)", w).

Definition outcome (question : string) (script : World)
  : Res (gmap string string) :=
  turn_outcome World llm_invoke db_chain_run get_table_info question script.

Definition log (question : string) (script : World) : list Event :=
  turn_log World llm_invoke db_chain_run get_table_info question script.

(** The statements one call of [execute_node] runs for a given [sql]. *)
Definition executed_by (sql : string) : list string :=
  executed (trace (snd (execute_node World db_chain_run
                                     {[ "sql" := sql ]} (start [])))).

(** The value of [key] in the dict a turn returns, if it returns one. *)
Definition final (key question : string) (script : World) : option string :=
  match outcome question script with
  | Ok state => state !! key
  | Raise _ => None
  end.

End Stub.

(** A deterministic stand-in: the model and the database answer by the text
    they are given alone, while the world still moves on at every call. *)
Module Canned.

Definition World : Type := nat.

Definition llm_invoke (prompt : string) (w : World) : string * World :=
  ("SELECT 1", S w).

Definition db_chain_run (stmt : string) (w : World) : DbOutcome * World :=
  (Rows ("rows(" ++ stmt ++ ")"), S w).

Definition get_table_info (w : World) : string * World :=
  ("CREATE TABLE t (x INT)", S w).

End Canned.

(** Events that say nothing to the readers of node activations, model calls
    and schema reads: what a stretch of database calls looks like. *)
Definition quiet (evs : list Event) : Prop :=
  activations evs = [] /\ node_states evs = [] /\ llm_prompts evs = []
  /\ llm_replies evs = [] /\ schema_fetches evs = []
  /\ forall n, handed n evs = [].

(** [reads log ...]: what each reader finds in [log], the statements run
    and the database errors being those of the stretch [dbevs]. *)
Definition reads (log : list Event) (nodes : list Node)
           (states : list (gmap string string))
           (prompts replies fetches : list string)
           (repairs : list (gmap string string)) (dbevs : list Event) : Prop :=
  activations log = nodes
  /\ node_states log = states
  /\ llm_prompts log = prompts
  /\ llm_replies log = replies
  /\ schema_fetches log = fetches
  /\ handed handle_error log = repairs
  /\ executed log = executed dbevs
  /\ db_errors log = db_errors dbevs.

(** [keeps state state']: [state'] binds every key [state] binds, and
    agrees with [state] on every key other than the four the nodes
    write. *)
Definition keeps (state state' : gmap string string) : Prop :=
  (forall key, is_Some (state !! key) -> is_Some (state' !! key))
  /\ (forall key,
        key <> "sql" -> key <> "result" -> key <> "explanation" ->
        key <> "error" ->
        state' !! key = state !! key).

(** ** The command loop of [main] *)

Section Session.

Variable World : Type.
Variable llm_invoke : string -> World -> string * World.
Variable db_chain_run : string -> World -> DbOutcome * World.
Variable get_table_info : World -> string * World.

(** [str(e)] of the runner's [GraphRecursionError], a text of the graph
    library. *)
Variable recursion_message : string.

(** [str(e)] for the exceptions of this program; a [KeyError] shows its key
    between single quotes. *)
Definition exn_text (x : Exn) : string :=
  match x with
  | KeyError key => "'" ++ key ++ "'"
  | GraphRecursionError => recursion_message
  end.

(** How [main] comes to an end: [break] on exit, [sys.exit()] on quit, the
    [EOFError] of [input] when the lines run out, or [break] in the
    [except] branch. *)
Inductive Ending : Type :=
  | Exited
  | Quit
  | EndOfInput
  | Failed.

(** The two tests [main] makes on the stripped line. *)
Definition quit_typed (query : string) : bool := String.eqb query "quit".

Definition exit_typed (query : string) : bool :=
  String.eqb (PyStr.lower query) "exit".

(** What [input] writes before it reads. *)
Definition question_prompt : string :=
  PyStr.nl ++ "Enter your question (or 'exit' to quit): ".

(** The [while True] loop on the lines still to be typed. [printed] is what
    has been written to the terminal so far, one entry per [print] or
    prompt. *)
Fixpoint main_loop (lines : list string) (printed : list string)
  : Env World -> (list string * Ending) * Env World :=
  match lines with
  | [] => fun e => ((printed ++ [question_prompt])%list, EndOfInput, e)
  | line :: rest => fun e =>
      let query := PyStr.strip line in
      if quit_typed query then ((printed ++ [question_prompt])%list, Quit, e)
      else if exit_typed query
      then ((printed ++ [question_prompt])%list, Exited, e)
      else
        match main_turn World llm_invoke db_chain_run get_table_info query e with
        | (Ok result, e') =>
            main_loop rest
              (printed ++ [question_prompt] ++ main_display result)%list e'
        | (Raise x, e') =>
            ((printed ++ [question_prompt]
                      ++ [PyStr.nl +:+ "An error occurred: " +:+ exn_text x])%list,
             Failed, e')
        end
  end.

(** [main()] on the lines typed at the terminal. *)
Definition main (lines : list string)
  : Env World -> (list string * Ending) * Env World :=
  main_loop lines ["Welcome to the Text-to-SQL Agent!"; "Type 'exit' to quit."].

End Session.

(** ** The earlier nodes of [playground.py] *)

Module Playground.

Section Nodes.

Variable World : Type.
Variable llm_invoke : string -> World -> string * World.
Variable db_chain_run : string -> World -> DbOutcome * World.
Variable get_table_info : World -> string * World.

Local Notation "'let*' x ':=' m 'in' k" := (bind World m (fun x => k))
  (at level 10, x name, m at level 100, k at level 200).

(** The reply becomes [sql] as it is. *)
Definition query_node (state : gmap string string)
  : M World (gmap string string) :=
  let* schema := schema_of World get_table_info state in
  let* query := getitem World state "query" in
  let* content := llm World llm_invoke (QUERY_PROMPT schema query) in
  ret World {[ "sql" := content ]}.

(** The whole text goes to the database in one call; the [try] catches the
    database's exception and the [KeyError] of [state['sql']] alike. *)
Definition execute_node (state : gmap string string)
  : M World (gmap string string) :=
  match state !! "sql" with
  | Some sql =>
      let* out := db_run World db_chain_run sql in
      match out with
      | Rows result => ret World {[ "result" := result ]}
      | DbRaise msg => ret World {[ "error" := msg ]}
      end
  | None => ret World {[ "error" := "'sql'" ]}
  end.

Definition error_handling_node (state : gmap string string)
  : M World (gmap string string) :=
  let* schema := schema_of World get_table_info state in
  let* error := getitem World state "error" in
  let* query := getitem World state "query" in
  let* failed := getitem World state "sql" in
  let* content :=
    llm World llm_invoke (ERROR_HANDLING_PROMPT error schema query failed) in
  ret World {[ "sql" := content ]}.

End Nodes.

End Playground.

(** * Properties *)

(** ** Splitting and stripping *)

Module PyStrFacts.

Import PyStr.

Lemma truthy_nonempty s : truthy s = true <-> s <> "".
Proof. destruct s; simpl; split; congruence. Qed.

Lemma split_nonempty sep s : split sep s <> [].
Proof.
  destruct s as [|c s]; simpl; [discriminate|].
  destruct (Ascii.eqb c sep); [discriminate|].
  destruct (split sep s); discriminate.
Qed.

(** A string without the separator is its own single fragment. *)
Lemma split_no_sep sep s : contains sep s = false -> split sep s = [s].
Proof.
  induction s as [|c s IH]; simpl; [reflexivity|].
  intros H. apply orb_false_iff in H as [Hc Hs].
  rewrite Hc, (IH Hs). reflexivity.
Qed.

Lemma join_cons sep p q ps :
  join sep (p :: q :: ps) = p ++ sep ++ join sep (q :: ps).
Proof. reflexivity. Qed.

(** Joining the fragments with the separator gives the string back, and no
    fragment contains the separator: [split] cuts at every separator and
    nowhere else. *)
Lemma join_split sep s : join (String sep EmptyString) (split sep s) = s.
Proof.
  induction s as [|c s IH]; simpl; [reflexivity|].
  pose proof (split_nonempty sep s) as Hs.
  destruct (Ascii.eqb_spec c sep) as [->|Hne];
    destruct (split sep s) as [|q ps]; try contradiction.
  - rewrite join_cons, IH. reflexivity.
  - destruct ps as [|r ps].
    + simpl in *. congruence.
    + rewrite join_cons. rewrite join_cons in IH. rewrite <- IH. reflexivity.
Qed.

Lemma split_fragments sep s :
  Forall (fun frag => contains sep frag = false) (split sep s).
Proof.
  induction s as [|c s IH]; simpl.
  - repeat constructor.
  - destruct (Ascii.eqb c sep) eqn:Hc.
    + constructor; [reflexivity | exact IH].
    + destruct (split sep s) as [|q ps].
      * repeat constructor. simpl. now rewrite Hc.
      * inversion IH; subst.
        constructor; [simpl; now rewrite Hc | assumption].
Qed.

End PyStrFacts.

(** No statement handed to the database is blank. *)
Lemma statements_truthy sql :
  Forall (fun stmt => PyStr.truthy stmt = true) (statements sql).
Proof.
  unfold statements. apply List.Forall_forall. intros stmt Hin.
  apply List.in_map_iff in Hin as (frag & <- & Hfrag).
  apply List.filter_In in Hfrag as [_ Hfrag]. exact Hfrag.
Qed.

Lemma statements_single sql :
  PyStr.contains ";" sql = false ->
  PyStr.truthy (PyStr.strip sql) = true ->
  statements sql = [PyStr.strip sql].
Proof.
  intros Hsep Hnb. unfold statements.
  rewrite (PyStrFacts.split_no_sep _ _ Hsep). simpl. now rewrite Hnb.
Qed.

(** ** Dict updates and logs *)

Local Open Scope list_scope.

Lemma update_same (k v : string) (m : gmap string string) :
  ({[ k := v ]} ∪ m) !! k = Some v.
Proof. apply lookup_union_Some_l, lookup_singleton_eq. Qed.

Lemma update_other (k k' v : string) (m : gmap string string) :
  k <> k' -> ({[ k := v ]} ∪ m) !! k' = m !! k'.
Proof.
  intros H. rewrite lookup_union_r; [reflexivity|].
  now apply lookup_singleton_ne.
Qed.

(** Merging never removes a key. *)
Lemma update_keeps (upd m : gmap string string) k :
  is_Some (m !! k) -> is_Some ((upd ∪ m) !! k).
Proof. intros H. apply lookup_union_is_Some. now right. Qed.


(** What the runner reads from the dict it is invoked on. *)
Lemma read_input_lookup {World} (g : CompiledGraph World)
      (state : gmap string string) key :
  read_input World g state !! key
  = if decide (key ∈ channels World g) then state !! key else None.
Proof.
  unfold read_input. rewrite map_lookup_filter.
  destruct (state !! key) as [v|]; cbn.
  - destruct (decide (key ∈ channels World g)) as [Hin|Hout].
    + now rewrite option_guard_True.
    + now rewrite option_guard_False.
  - now destruct (decide (key ∈ channels World g)).
Qed.

Lemma read_input_idem {World} (g : CompiledGraph World)
      (state : gmap string string) :
  read_input World g (read_input World g state) = read_input World g state.
Proof.
  apply map_eq. intros key. rewrite !read_input_lookup.
  now destruct (decide (key ∈ channels World g)).
Qed.

(** The state [main] builds has the six keys and no other: the runner
    reads it whole. *)
Lemma read_input_SQLState {World} llm_invoke db_chain_run get_table_info
      query sql result explanation schema error :
  read_input World
             (create_sql_agent World llm_invoke db_chain_run get_table_info)
             (SQLState query sql result explanation schema error)
  = SQLState query sql result explanation schema error.
Proof.
  apply map_eq. intros key. rewrite read_input_lookup.
  destruct (decide (key ∈ _)) as [Hin|Hout]; [reflexivity|].
  symmetry. unfold SQLState.
  rewrite !lookup_insert_ne
    by (intros <-; apply Hout; cbn; repeat constructor).
  apply lookup_singleton_ne. intros <-. apply Hout. cbn. repeat constructor.
Qed.

Lemma all_rows_snoc stmts outs stmt out :
  length outs = length stmts ->
  all_rows (stmts ++ [stmt]) (outs ++ [out])
  = all_rows stmts outs ++ [EvDb stmt (Rows out)].
Proof.
  intros H. unfold all_rows.
  rewrite zip_with_app by (symmetry; exact H). reflexivity.
Qed.

(** Database calls are invisible to every reader of the log but [executed]
    and [db_errors]. *)
Lemma all_rows_quiet stmts : forall outs,
  activations (all_rows stmts outs) = []
  /\ node_states (all_rows stmts outs) = []
  /\ llm_prompts (all_rows stmts outs) = []
  /\ llm_replies (all_rows stmts outs) = []
  /\ schema_fetches (all_rows stmts outs) = []
  /\ db_errors (all_rows stmts outs) = []
  /\ forall n, handed n (all_rows stmts outs) = [].
Proof.
  induction stmts as [|stmt stmts IH]; intros [|out outs];
    try (repeat split; reflexivity).
  destruct (IH outs) as (H1 & H2 & H3 & H4 & H5 & H6 & H7).
  repeat split; try assumption.
Qed.

Lemma exec_outcome_quiet stmts evs upd :
  exec_outcome stmts evs upd ->
  activations evs = [] /\ node_states evs = [] /\ llm_prompts evs = []
  /\ llm_replies evs = [] /\ schema_fetches evs = []
  /\ forall n, handed n evs = [].
Proof.
  intros [outs _|before stmt rest outs msg _ _].
  - destruct (all_rows_quiet stmts outs) as (H1 & H2 & H3 & H4 & H5 & _ & H7).
    repeat split; assumption.
  - destruct (all_rows_quiet before outs) as (H1 & H2 & H3 & H4 & H5 & _ & H7).
    unfold activations, node_states, llm_prompts, llm_replies, schema_fetches,
      handed in *.
    rewrite !omap_app, H1, H2, H3, H4, H5.
    repeat split; try reflexivity.
    intros n. rewrite omap_app, H7. reflexivity.
Qed.

(** An execution attempt returns a dict with exactly one key: [result] when
    no statement raised, [error] with a non-empty message otherwise. *)
Lemma exec_outcome_keys stmts evs upd :
  exec_outcome stmts evs upd ->
  (db_errors evs = [] /\ exists r, upd = {[ "result" := r ]})
  \/ (db_errors evs <> [] /\ exists m, upd = {[ "error" := m ]} /\ m <> "").
Proof.
  intros [outs _|before stmt rest outs msg _ _].
  - left. split; [apply all_rows_quiet | eauto].
  - right. split.
    + unfold db_errors. rewrite omap_app. simpl.
      intros H. apply app_eq_nil in H as [_ H]. discriminate.
    + eexists. split; [reflexivity | discriminate].
Qed.

Lemma executed_all_rows stmts : forall outs,
  length outs = length stmts -> executed (all_rows stmts outs) = stmts.
Proof.
  induction stmts as [|stmt stmts IH]; intros [|out outs] Hlen;
    try discriminate; [reflexivity|].
  cbn. f_equal. apply IH. now injection Hlen.
Qed.

(** The statements run are all of them when none raises, and otherwise
    those up to and including the first that raises. *)
Lemma exec_outcome_executed stmts evs upd :
  exec_outcome stmts evs upd ->
  (db_errors evs = [] /\ executed evs = stmts)
  \/ (exists before stmt rest,
        stmts = before ++ stmt :: rest
        /\ executed evs = before ++ [stmt]
        /\ db_errors evs <> []).
Proof.
  intros [outs Hlen|before stmt rest outs msg Heq Hlen].
  - left. split; [apply all_rows_quiet | now apply executed_all_rows].
  - right. exists before, stmt, rest. split; [exact Heq|]. split.
    + unfold executed. rewrite omap_app.
      fold (executed (all_rows before outs)).
      now rewrite executed_all_rows.
    + unfold db_errors. rewrite omap_app. cbn.
      intros H. apply app_eq_nil in H as [_ H]. discriminate.
Qed.

Lemma exec_outcome_nil evs upd :
  exec_outcome [] evs upd -> evs = [].
Proof.
  intros H. inversion H as [outs _|before stmt rest outs msg Heq _]; subst.
  - reflexivity.
  - destruct before; discriminate.
Qed.

(** ** The nodes and the runner, step by step *)

Section RunFacts.

Context {World : Type}.
Variable llm_invoke : string -> World -> string * World.
Variable db_chain_run : string -> World -> DbOutcome * World.
Variable get_table_info : World -> string * World.

Local Abbreviation agent :=
  (create_sql_agent World llm_invoke db_chain_run get_table_info).

Local Abbreviation gen_update c :=
  (if PyStr.truthy (PyStr.strip c)
   then ({[ "sql" := PyStr.strip c ]} : gmap string string)
   else {[ "error" := "No SQL query generated" ]}).

Local Abbreviation repair_update c :=
  (if PyStr.truthy (PyStr.strip c)
   then ({[ "sql" := PyStr.strip c ]} : gmap string string)
   else {[ "error" := "Failed to generate corrected query" ]}).

Lemma run_step (g : CompiledGraph World) fuel n st (e : Env World) :
  run World g (S fuel) n st e =
  match action World g n st (mkEnv (world e) (trace e ++ [EvNode n st])) with
  | (Ok upd, e') =>
      match edge World g n (upd ∪ st) with
      | END => (Ok (upd ∪ st), e')
      | Goto n' => run World g fuel n' (upd ∪ st) e'
      end
  | (Raise x, e') => (Raise x, e')
  end.
Proof.
  simpl. unfold bind, emit. simpl.
  destruct (action World g n st _) as [[upd|x] e']; [|reflexivity].
  destruct (edge World g n (upd ∪ st)); reflexivity.
Qed.

(** The loop of [execute_node], started with [outs] already collected for
    the statements [before]. *)
Lemma run_statements_log stmts : forall before outs (e : Env World),
  length outs = length before ->
  exists upd e' evs,
    run_statements World db_chain_run stmts outs e = (Ok upd, e')
    /\ trace e' = trace e ++ evs
    /\ answered db_chain_run (world e) evs (world e')
    /\ exec_outcome (before ++ stmts) (all_rows before outs ++ evs) upd.
Proof.
  induction stmts as [|stmt rest IH]; intros before outs e Hlen.
  - exists {[ "result" := PyStr.join PyStr.nl outs ]}, e, [].
    rewrite !app_nil_r. repeat split; [constructor|].
    now constructor.
  - simpl. unfold bind, db_run.
    destruct (db_chain_run stmt (world e)) as [[out|msg] w1] eqn:Hdb.
    + destruct (IH (before ++ [stmt]) (outs ++ [out])
                   (mkEnv w1 (trace e ++ [EvDb stmt (Rows out)])))
        as (upd & e' & evs & Hrun & Htr & Hans & Hout).
      { rewrite !length_app. simpl. lia. }
      exists upd, e', (EvDb stmt (Rows out) :: evs).
      repeat split.
      * exact Hrun.
      * rewrite Htr. simpl. now rewrite <- app_assoc.
      * econstructor; eauto.
      * rewrite all_rows_snoc in Hout by exact Hlen.
        rewrite <- !app_assoc in Hout. exact Hout.
    + eexists _, _, [EvDb stmt (DbRaise msg)].
      repeat split.
      * simpl. repeat econstructor; eauto.
      * econstructor; eauto.
Qed.

Lemma query_node_result st (e : Env World) q :
  st !! "query" = Some q ->
  exists info c w',
    query_node World llm_invoke get_table_info st e
    = (Ok (gen_update c),
       mkEnv w' (trace e
                 ++ [EvSchema info;
                     EvLLM (QUERY_PROMPT (default info (st !! "schema")) q) c])).
Proof.
  intros Hq. unfold query_node, schema_of, bind, get_schema, getitem, llm, ret.
  destruct (get_table_info (world e)) as [info w1]. simpl. rewrite Hq. simpl.
  destruct (llm_invoke _ w1) as [c w2]. simpl.
  exists info, c, w2. rewrite <- app_assoc.
  destruct (PyStr.truthy (PyStr.strip c)); reflexivity.
Qed.

Lemma execute_node_result st (e : Env World) sql :
  st !! "sql" = Some sql ->
  exists upd e' evs,
    execute_node World db_chain_run st e = (Ok upd, e')
    /\ trace e' = trace e ++ evs
    /\ answered db_chain_run (world e) evs (world e')
    /\ exec_outcome (statements sql) evs upd.
Proof.
  intros Hs. unfold execute_node. rewrite Hs.
  destruct (run_statements_log (statements sql) [] [] e eq_refl)
    as (upd & e' & evs & Hrun & Htr & Hans & Hout).
  exists upd, e', evs. auto.
Qed.

Lemma error_handling_node_result st (e : Env World) err q sql :
  st !! "error" = Some err -> st !! "query" = Some q -> st !! "sql" = Some sql ->
  exists info c w',
    error_handling_node World llm_invoke get_table_info st e
    = (Ok (repair_update c),
       mkEnv w' (trace e
                 ++ [EvSchema info;
                     EvLLM (ERROR_HANDLING_PROMPT
                              err (default info (st !! "schema")) q sql) c])).
Proof.
  intros He Hq Hs.
  unfold error_handling_node, schema_of, bind, get_schema, getitem, llm, ret.
  destruct (get_table_info (world e)) as [info w1]. simpl.
  rewrite He, Hq, Hs. simpl.
  destruct (llm_invoke _ w1) as [c w2]. simpl.
  exists info, c, w2. rewrite <- app_assoc.
  destruct (PyStr.truthy (PyStr.strip c)); reflexivity.
Qed.

(** From a state that already binds [query], [sql] and [error], the run is
    always generate, execute, repair, final error; the log says what each
    node was handed and what the collaborators answered. *)
Lemma agent_log st (e : Env World) q s0 e0 fuel :
  st !! "query" = Some q -> st !! "sql" = Some s0 -> st !! "error" = Some e0 ->
  exists info1 c1 dbevs upd2 info3 c3 e' s1 e2,
    let st1 := gen_update c1 ∪ st in
    let st2 := upd2 ∪ st1 in
    let st3 := repair_update c3 ∪ st2 in
    run World agent (4 + fuel) generate_sql st e
    = (Ok ({[ "error" := "Final error: " +:+ default "Unknown error" (st3 !! "error") ]}
           ∪ st3), e')
    /\ trace e'
       = trace e
         ++ [EvNode generate_sql st; EvSchema info1;
             EvLLM (QUERY_PROMPT (default info1 (st !! "schema")) q) c1;
             EvNode run_query st1]
         ++ dbevs
         ++ [EvNode handle_error st2; EvSchema info3;
             EvLLM (ERROR_HANDLING_PROMPT
                      e2 (default info3 (st !! "schema")) q s1) c3;
             EvNode final_error st3]
    /\ st1 !! "sql" = Some s1
    /\ st2 !! "error" = Some e2
    /\ exec_outcome (statements s1) dbevs upd2.
Proof.
  intros Hq Hs He.
  destruct (query_node_result
              st (mkEnv (world e) (trace e ++ [EvNode generate_sql st])) q Hq)
    as (info1 & c1 & w1 & Hgen).
  cbn [trace world] in Hgen.
  set (st1 := gen_update c1 ∪ st).
  assert (Hs1 : exists s1, st1 !! "sql" = Some s1).
  { subst st1. destruct (PyStr.truthy (PyStr.strip c1));
      [rewrite update_same | rewrite update_other by discriminate]; eauto. }
  destruct Hs1 as [s1 Hs1].
  assert (Hk1 : st1 !! "query" = Some q /\ st1 !! "schema" = st !! "schema"
                /\ is_Some (st1 !! "error")).
  { subst st1. destruct (PyStr.truthy (PyStr.strip c1)).
    - rewrite !update_other by discriminate. rewrite He. eauto.
    - rewrite !update_other by discriminate. rewrite update_same. eauto. }
  destruct Hk1 as (Hq1 & Hsch1 & He1).
  destruct (execute_node_result st1
              (mkEnv w1 (((trace e ++ [EvNode generate_sql st])
                          ++ [EvSchema info1;
                              EvLLM (QUERY_PROMPT (default info1 (st !! "schema")) q) c1])
                         ++ [EvNode run_query st1])) s1 Hs1)
    as (upd2 & e2 & dbevs & Hex & Htr2 & _ & Hout).
  cbn [trace world] in Htr2.
  set (st2 := upd2 ∪ st1).
  assert (Hk2 : st2 !! "query" = Some q /\ st2 !! "sql" = Some s1
                /\ st2 !! "schema" = st !! "schema"
                /\ exists err2, st2 !! "error" = Some err2).
  { subst st2. destruct He1 as [err1 He1].
    destruct (exec_outcome_keys _ _ _ Hout) as [[_ [r ->]]|[_ (m & -> & _)]].
    - rewrite !update_other by discriminate. eauto.
    - rewrite !update_other by discriminate. rewrite update_same. eauto. }
  destruct Hk2 as (Hq2 & Hs2 & Hsch2 & err2 & He2).
  destruct (error_handling_node_result st2
              (mkEnv (world e2) (trace e2 ++ [EvNode handle_error st2]))
              err2 q s1 He2 Hq2 Hs2)
    as (info3 & c3 & w3 & Hrep).
  cbn [trace world] in Hrep.
  set (st3 := repair_update c3 ∪ st2).
  assert (He3 : exists err3, st3 !! "error" = Some err3).
  { subst st3. destruct (PyStr.truthy (PyStr.strip c3));
      [rewrite update_other by discriminate | rewrite update_same]; eauto. }
  destruct He3 as [err3 He3].
  exists info1, c1, dbevs, upd2, info3, c3.
  exists (mkEnv w3
            (((trace e2 ++ [EvNode handle_error st2])
              ++ [EvSchema info3;
                  EvLLM (ERROR_HANDLING_PROMPT
                           err2 (default info3 (st2 !! "schema")) q s1) c3])
             ++ [EvNode final_error st3])).
  exists s1, err2.
  cbv zeta. fold st1. fold st2. fold st3.
  split; [|split; [|split; [exact Hs1|split; [exact He2|exact Hout]]]].
  - change (4 + fuel) with (S (S (S (S fuel)))).
    rewrite run_step. cbn [action edge create_sql_agent]. rewrite Hgen.
    rewrite run_step. cbn [action edge create_sql_agent world trace].
    fold st1. rewrite Hex. fold st2.
    unfold contains_key at 1. rewrite He2.
    rewrite run_step. cbn [action edge create_sql_agent]. rewrite Hrep.
    fold st3. unfold contains_key at 1. rewrite He3.
    rewrite run_step. cbn [action edge create_sql_agent].
    unfold final_error_node, ret. cbn [world trace]. rewrite He3.
    reflexivity.
  - cbn [trace]. rewrite Htr2, Hsch2.
    rewrite <- !app_assoc. reflexivity.
Qed.

Lemma SQLState_keys query sql result explanation schema error :
  let st := SQLState query sql result explanation schema error in
  st !! "query" = Some query /\ st !! "sql" = Some sql
  /\ st !! "result" = Some result /\ st !! "explanation" = Some explanation
  /\ st !! "schema" = Some schema /\ st !! "error" = Some error.
Proof. unfold SQLState. repeat split; simplify_map_eq; reflexivity. Qed.

(** One turn of [main]: the log in full. *)
Lemma main_turn_log q (w : World) :
  exists sch info1 c1 dbevs upd2 info3 c3 e' s1 e2,
    let st0 := SQLState q "" "" "" sch "" in
    let st1 := gen_update c1 ∪ st0 in
    let st2 := upd2 ∪ st1 in
    let st3 := repair_update c3 ∪ st2 in
    main_turn World llm_invoke db_chain_run get_table_info q (start w)
    = (Ok ({[ "error" := "Final error: " +:+ default "Unknown error" (st3 !! "error") ]}
           ∪ st3), e')
    /\ trace e'
       = [EvSchema sch; EvNode generate_sql st0; EvSchema info1;
          EvLLM (QUERY_PROMPT sch q) c1; EvNode run_query st1]
         ++ dbevs
         ++ [EvNode handle_error st2; EvSchema info3;
             EvLLM (ERROR_HANDLING_PROMPT e2 sch q s1) c3;
             EvNode final_error st3]
    /\ st1 !! "sql" = Some s1
    /\ st2 !! "error" = Some e2
    /\ exec_outcome (statements s1) dbevs upd2.
Proof.
  unfold main_turn, main_state, bind, get_schema, ret, start, invoke.
  cbn [world trace]. destruct (get_table_info w) as [sch w0].
  rewrite read_input_SQLState. cbn [entry_point create_sql_agent].
  destruct (SQLState_keys q "" "" "" sch "") as (Hq & Hs & _ & _ & Hsch & He).
  cbv zeta in Hq, Hs, Hsch, He.
  change recursion_limit with (4 + 21).
  destruct (agent_log (SQLState q "" "" "" sch "") (mkEnv w0 ([] ++ [EvSchema sch]))
                      q "" "" 21 Hq Hs He)
    as (info1 & c1 & dbevs & upd2 & info3 & c3 & e' & s1 & e2 & Hrun & Htr & H1 & H2 & H3).
  exists sch, info1, c1, dbevs, upd2, info3, c3, e', s1, e2.
  cbv zeta in *. rewrite Hsch in Htr. cbn [default trace app] in Htr.
  repeat split; assumption.
Qed.

(** What the readers of the log see in a turn. *)
Lemma turn_log_readers st0 st1 st2 st3 sch info1 info3 p1 c1 p3 c3 dbevs stmts upd :
  exec_outcome stmts dbevs upd ->
  let log := [EvSchema sch; EvNode generate_sql st0; EvSchema info1;
              EvLLM p1 c1; EvNode run_query st1]
             ++ dbevs
             ++ [EvNode handle_error st2; EvSchema info3; EvLLM p3 c3;
                 EvNode final_error st3] in
  activations log = [generate_sql; run_query; handle_error; final_error]
  /\ node_states log = [st0; st1; st2; st3]
  /\ handed run_query log = [st1]
  /\ llm_prompts log = [p1; p3]
  /\ llm_replies log = [c1; c3]
  /\ schema_fetches log = [sch; info1; info3]
  /\ executed log = executed dbevs
  /\ db_errors log = db_errors dbevs.
Proof.
  intros Hout log. subst log.
  destruct (exec_outcome_quiet _ _ _ Hout) as (H1 & H2 & H3 & H4 & H5 & H6).
  unfold activations, node_states, handed, llm_prompts, llm_replies,
    schema_fetches, executed, db_errors in *.
  rewrite !omap_app, H1, H2, H3, H4, H5, (H6 run_query).
  cbn. rewrite !app_nil_r. repeat split; reflexivity.
Qed.

End RunFacts.

Section Bounded.

Context {World : Type}.
Variable llm_invoke : string -> World -> string * World.
Variable db_chain_run : string -> World -> DbOutcome * World.
Variable get_table_info : World -> string * World.

Local Abbreviation agent :=
  (create_sql_agent World llm_invoke db_chain_run get_table_info).

Local Ltac close_node :=
  eexists _, _, _; split; [reflexivity|];
  split; [cbn [trace];
          first [ symmetry; apply app_nil_r
                | rewrite <- ?app_assoc; reflexivity ]|];
  split; [reflexivity|].

(** No node activates another node or raises anything but [KeyError]; the
    repair node returns only when the state binds [error]. *)
Lemma node_quiet n st (e : Env World) :
  exists r e' evs,
    action World agent n st e = (r, e')
    /\ trace e' = trace e ++ evs
    /\ activations evs = []
    /\ match r with
       | Ok _ => n = handle_error -> is_Some (st !! "error")
       | Raise x => n <> run_query /\ exists key, x = KeyError key
       end.
Proof.
  destruct n; cbn [action create_sql_agent].
  - unfold query_node, schema_of, bind, get_schema, getitem, llm, ret, raise.
    destruct (get_table_info (world e)) as [info w1]. cbn [world trace].
    destruct (st !! "query") as [q|]; simpl.
    + destruct (llm_invoke _ w1) as [c w2].
      destruct (PyStr.truthy (PyStr.strip c)); close_node; discriminate.
    + close_node. split; [discriminate | eauto].
  - unfold execute_node. destruct (st !! "sql") as [sql|] eqn:Hs.
    + destruct (execute_node_result db_chain_run st e sql Hs)
        as (upd & e' & evs & Hex & Htr & _ & Hout).
      unfold execute_node in Hex. rewrite Hs in Hex.
      exists (Ok upd), e', evs. repeat split; try assumption.
      * apply (exec_outcome_quiet _ _ _ Hout).
      * discriminate.
    + unfold ret. close_node. discriminate.
  - unfold explain_node, bind, getitem, llm, ret, raise.
    destruct (st !! "sql") as [sql|].
    + simpl. destruct (llm_invoke _ (world e)) as [c w1].
      close_node. discriminate.
    + close_node. split; [discriminate | eauto].
  - unfold error_handling_node, schema_of, bind, get_schema, getitem, llm, ret, raise.
    destruct (get_table_info (world e)) as [info w1]. cbn [world trace].
    destruct (st !! "error") as [err|]; [|close_node; split; [discriminate | eauto]].
    destruct (st !! "query") as [q|]; [|close_node; split; [discriminate | eauto]].
    destruct (st !! "sql") as [sql|]; [|close_node; split; [discriminate | eauto]].
    simpl. destruct (llm_invoke _ w1) as [c w2].
    destruct (PyStr.truthy (PyStr.strip c)); close_node; eauto.
  - unfold final_error_node, ret. close_node. discriminate.
Qed.

Lemma activations_app l1 l2 :
  activations (l1 ++ l2) = activations l1 ++ activations l2.
Proof. apply omap_app. Qed.

Lemma activations_node n st l :
  activations (EvNode n st :: l) = n :: activations l.
Proof. reflexivity. Qed.

(** Every run of the graph, from any state: which nodes are activated and
    how the run ends. *)
Lemma run_outcomes st (e : Env World) fuel :
  exists r e' evs,
    run World agent (4 + fuel) generate_sql st e = (r, e')
    /\ trace e' = trace e ++ evs
    /\ ((activations evs = [generate_sql]
         /\ exists key, r = Raise (KeyError key))
        \/ (activations evs = [generate_sql; run_query; explain_query]
            /\ r <> Raise GraphRecursionError)
        \/ (activations evs = [generate_sql; run_query; handle_error]
            /\ exists key, r = Raise (KeyError key))
        \/ (activations evs = [generate_sql; run_query; handle_error; final_error]
            /\ exists st' x, r = Ok st'
                             /\ st' !! "error" = Some ("Final error: " +:+ x))).
Proof.
  change (4 + fuel) with (S (S (S (S fuel)))).
  rewrite run_step.
  destruct (node_quiet generate_sql st
              (mkEnv (world e) (trace e ++ [EvNode generate_sql st])))
    as (r1 & e1 & evs1 & H1 & T1 & A1 & P1).
  cbn [trace] in T1. rewrite H1. destruct r1 as [upd1|x1].
  2:{ destruct P1 as [_ [key ->]].
      exists (Raise (KeyError key)), e1, (EvNode generate_sql st :: evs1).
      split; [reflexivity|]. split; [rewrite T1, <- app_assoc; reflexivity|].
      left. rewrite activations_node, A1. eauto. }
  cbn [edge create_sql_agent]. set (st1 := upd1 ∪ st).
  rewrite run_step.
  destruct (node_quiet run_query st1
              (mkEnv (world e1) (trace e1 ++ [EvNode run_query st1])))
    as (r2 & e2 & evs2 & H2 & T2 & A2 & P2).
  cbn [trace] in T2. rewrite H2. destruct r2 as [upd2|x2].
  2:{ destruct P2 as [P2 _]. contradiction. }
  cbn [edge create_sql_agent]. set (st2 := upd2 ∪ st1).
  assert (Tr2 : trace e2 = trace e ++ (EvNode generate_sql st :: evs1)
                           ++ (EvNode run_query st1 :: evs2)).
  { rewrite T2, T1, <- !app_assoc. reflexivity. }
  assert (Ac2 : activations ((EvNode generate_sql st :: evs1)
                             ++ (EvNode run_query st1 :: evs2))
                = [generate_sql; run_query]).
  { rewrite activations_app, !activations_node, A1, A2. reflexivity. }
  destruct (contains_key "error" st2) eqn:Hkey.
  - rewrite run_step.
    destruct (node_quiet handle_error st2
                (mkEnv (world e2) (trace e2 ++ [EvNode handle_error st2])))
      as (r3 & e3 & evs3 & H3 & T3 & A3 & P3).
    cbn [trace] in T3. rewrite H3. destruct r3 as [upd3|x3].
    2:{ destruct P3 as [_ [key ->]].
        exists (Raise (KeyError key)), e3,
          (((EvNode generate_sql st :: evs1) ++ (EvNode run_query st1 :: evs2))
           ++ (EvNode handle_error st2 :: evs3)).
        split; [reflexivity|].
        split; [rewrite T3, Tr2, <- !app_assoc; reflexivity|].
        right. right. left. rewrite activations_app, Ac2, activations_node, A3. eauto. }
    cbn [edge create_sql_agent]. set (st3 := upd3 ∪ st2).
    assert (Hkey3 : contains_key "error" st3 = true).
    { unfold contains_key.
      destruct (update_keeps upd3 st2 "error" (P3 eq_refl)) as [v Hv].
      subst st3. now rewrite Hv. }
    rewrite Hkey3, run_step. cbn [action edge create_sql_agent].
    unfold final_error_node, ret. cbn [world trace].
    eexists _, _,
      (((EvNode generate_sql st :: evs1) ++ (EvNode run_query st1 :: evs2))
       ++ (EvNode handle_error st2 :: evs3) ++ [EvNode final_error st3]).
    split; [reflexivity|].
    split; [cbn [trace]; rewrite T3, Tr2, <- !app_assoc; reflexivity|].
    right. right. right.
    rewrite (activations_app (_ ++ _)), Ac2, activations_app,
      activations_node, A3.
    split; [reflexivity|]. eexists _, _. split; [reflexivity|].
    apply update_same.
  - rewrite run_step.
    destruct (node_quiet explain_query st2
                (mkEnv (world e2) (trace e2 ++ [EvNode explain_query st2])))
      as (r4 & e4 & evs4 & H4 & T4 & A4 & P4).
    cbn [trace] in T4. rewrite H4.
    exists (match r4 with Ok upd4 => Ok (upd4 ∪ st2) | Raise x => Raise x end), e4,
      (((EvNode generate_sql st :: evs1) ++ (EvNode run_query st1 :: evs2))
       ++ (EvNode explain_query st2 :: evs4)).
    split; [destruct r4; reflexivity|].
    split; [rewrite T4, Tr2, <- !app_assoc; reflexivity|].
    right. left. rewrite activations_app, Ac2, activations_node, A4.
    split; [reflexivity|].
    destruct r4 as [upd4|x4]; [discriminate|].
    destruct P4 as [_ [key ->]]. discriminate.
Qed.

End Bounded.

(** [main] prints the error of a returned dict unless it is exactly
    ["Final error: "]. *)
Lemma main_display_error (st : gmap string string) x :
  st !! "error" = Some ("Final error: " +:+ x) ->
  x <> "" ->
  In (PyStr.nl +:+ "Error: " +:+ "Final error: " +:+ x) (main_display st).
Proof.
  intros Herr Hx. unfold main_display. rewrite Herr.
  do 3 (apply in_or_app; right).
  destruct x as [|a x]; [contradiction|]. left. reflexivity.
Qed.

(** ** The claims about the workflow, over arbitrary collaborators *)

Section Claims.

Context {World : Type}.
Variable llm_invoke : string -> World -> string * World.
Variable db_chain_run : string -> World -> DbOutcome * World.
Variable get_table_info : World -> string * World.

Local Abbreviation agent :=
  (create_sql_agent World llm_invoke db_chain_run get_table_info).
Local Abbreviation turn_outcome' :=
  (turn_outcome World llm_invoke db_chain_run get_table_info).
Local Abbreviation turn_log' :=
  (turn_log World llm_invoke db_chain_run get_table_info).
Local Abbreviation run_outcome' :=
  (run_outcome World llm_invoke db_chain_run get_table_info).
Local Abbreviation run_log' :=
  (run_log World llm_invoke db_chain_run get_table_info).

(** A turn of [main], summarised: the dict returned, the nodes activated,
    what each reader finds in the log, and how the error text travels. *)
Lemma turn_summary q (w : World) :
  exists sch info1 c1 dbevs upd2 info3 c3 e2,
    let s1 := if PyStr.truthy (PyStr.strip c1) then PyStr.strip c1 else "" in
    let e3 := if PyStr.truthy (PyStr.strip c3) then e2
              else "Failed to generate corrected query" in
    let st0 := SQLState q "" "" "" sch "" in
    let st1 := (if PyStr.truthy (PyStr.strip c1)
                then {[ "sql" := PyStr.strip c1 ]}
                else {[ "error" := "No SQL query generated" ]}) ∪ st0 in
    let st2 := upd2 ∪ st1 in
    let st3 := (if PyStr.truthy (PyStr.strip c3)
                then {[ "sql" := PyStr.strip c3 ]}
                else {[ "error" := "Failed to generate corrected query" ]}) ∪ st2 in
    turn_outcome' q w = Ok ({[ "error" := "Final error: " +:+ e3 ]} ∪ st3)
    /\ activations (turn_log' q w)
       = [generate_sql; run_query; handle_error; final_error]
    /\ node_states (turn_log' q w) = [st0; st1; st2; st3]
    /\ handed run_query (turn_log' q w) = [st1]
    /\ llm_prompts (turn_log' q w)
       = [QUERY_PROMPT sch q; ERROR_HANDLING_PROMPT e2 sch q s1]
    /\ llm_replies (turn_log' q w) = [c1; c3]
    /\ schema_fetches (turn_log' q w) = [sch; info1; info3]
    /\ executed (turn_log' q w) = executed dbevs
    /\ db_errors (turn_log' q w) = db_errors dbevs
    /\ exec_outcome (statements s1) dbevs upd2
    /\ st1 !! "sql" = Some s1
    /\ st2 !! "error" = Some e2
    /\ (PyStr.truthy (PyStr.strip c1) = false ->
        dbevs = [] /\ e2 = "No SQL query generated")
    /\ (db_errors dbevs <> [] -> e2 <> "").
Proof.
  destruct (main_turn_log llm_invoke db_chain_run get_table_info q w)
    as (sch & info1 & c1 & dbevs & upd2 & info3 & c3 & e' & s1 & e2
        & Hrun & Htr & Hs1 & He2 & Hout).
  exists sch, info1, c1, dbevs, upd2, info3, c3, e2.
  cbv zeta in *. unfold turn_outcome, turn_log. rewrite Hrun. cbn [fst snd].
  rewrite Htr.
  epose proof (turn_log_readers
                 _ _ _ _ sch info1 info3
                 (QUERY_PROMPT sch q) c1 (ERROR_HANDLING_PROMPT e2 sch q s1) c3
                 dbevs _ upd2 Hout) as R.
  cbv zeta in R. destruct R as (R1 & R2 & R3 & R4 & R5 & R6 & R7 & R8).
  rewrite R1, R2, R3, R4, R5, R6, R7, R8.
  destruct (SQLState_keys q "" "" "" sch "") as (_ & Hs0 & _ & _ & _ & He0).
  cbv zeta in Hs0, He0.
  assert (Es1 : s1 = if PyStr.truthy (PyStr.strip c1) then PyStr.strip c1 else "").
  { destruct (PyStr.truthy (PyStr.strip c1)).
    - rewrite update_same in Hs1. congruence.
    - rewrite update_other in Hs1 by discriminate. congruence. }
  subst s1.
  assert (E3 : ((if PyStr.truthy (PyStr.strip c3)
                 then ({[ "sql" := PyStr.strip c3 ]} : gmap string string)
                 else {[ "error" := "Failed to generate corrected query" ]})
                ∪ (upd2 ∪ ((if PyStr.truthy (PyStr.strip c1)
                            then {[ "sql" := PyStr.strip c1 ]}
                            else {[ "error" := "No SQL query generated" ]})
                           ∪ SQLState q "" "" "" sch ""))) !! "error"
               = Some (if PyStr.truthy (PyStr.strip c3) then e2
                       else "Failed to generate corrected query")).
  { destruct (PyStr.truthy (PyStr.strip c3)).
    - rewrite update_other by discriminate. exact He2.
    - apply update_same. }
  rewrite E3. cbn [default].
  split_and!; try reflexivity; try assumption.
  - intros Hblank. rewrite Hblank in *.
    apply exec_outcome_nil in Hout as Hnil. subst dbevs. split; [reflexivity|].
    inversion Hout as [outs _ Hevs Hupd|before stmt rest outs msg Heq _]; subst.
    + rewrite update_other, update_same in He2 by discriminate. congruence.
    + destruct before; discriminate.
  - intros Hfail.
    destruct (exec_outcome_keys _ _ _ Hout) as [[Hnone _]|[_ (m & -> & Hm)]];
      [contradiction|].
    rewrite update_same in He2. congruence.
Qed.

(** C10. The branch functions registered after [run_query] and after
    [handle_error] look only at whether the key ['error'] is in the state
    dict, never at its value. So for every state that binds ['error'],
    whatever dict the preceding step merges over it (a result as well as an
    error), [run_query] is followed by [handle_error] and [handle_error] by
    [final_error]. The state built by [main] binds ['error'] to the empty
    string, hence every turn of [main] activates generate_sql, run_query,
    handle_error and final_error, in that order, and nothing else. *)
Theorem dispatch_looks_at_key_presence_only
  (state update : gmap string string) :
  is_Some (state !! "error") ->
  edge World agent run_query (update ∪ state) = Goto handle_error
  /\ edge World agent handle_error (update ∪ state) = Goto final_error
  /\ (forall st : gmap string string,
        edge World agent run_query st
        = if bool_decide (is_Some (st !! "error"))
          then Goto handle_error else Goto explain_query)
  /\ (forall st : gmap string string,
        edge World agent handle_error st
        = if bool_decide (is_Some (st !! "error"))
          then Goto final_error else Goto run_query)
  /\ (forall q sch, SQLState q "" "" "" sch "" !! "error" = Some "")
  /\ (forall q w,
        activations (turn_log' q w)
        = [generate_sql; run_query; handle_error; final_error]).
Proof.
  intros Hkey.
  assert (Hedge : forall st : gmap string string,
             contains_key "error" st = bool_decide (is_Some (st !! "error"))).
  { intros st. unfold contains_key. destruct (st !! "error") as [v|] eqn:Hv.
    - symmetry. apply bool_decide_eq_true. eauto.
    - symmetry. apply bool_decide_eq_false. intros [v Hv']. discriminate. }
  destruct (update_keeps update state "error" Hkey) as [v Hv].
  split_and!.
  - cbn [edge create_sql_agent]. unfold contains_key. now rewrite Hv.
  - cbn [edge create_sql_agent]. unfold contains_key. now rewrite Hv.
  - intros st. cbn [edge create_sql_agent]. now rewrite Hedge.
  - intros st. cbn [edge create_sql_agent]. now rewrite Hedge.
  - intros q sch. apply (SQLState_keys q "" "" "" sch "").
  - intros q w.
    destruct (turn_summary q w)
      as (sch & info1 & c1 & dbevs & upd2 & info3 & c3 & e2 & H).
    cbv zeta in H. apply H.
Qed.

(** C2. When the repair step fails too (the model's second reply is
    blank), the turn returns a dict whose error field is set, to
    ["Final error: Failed to generate corrected query"], after exactly four
    node activations: one execution, one repair attempt, then the terminal
    failure step. More generally, from any state whatsoever the graph never
    reaches the runner's recursion limit, activates at most four nodes, and
    activates the repair step and the execute step at most once each:
    repair is never followed by another execution. *)
Theorem failed_repair_ends_the_run q (w : World) :
  occurs RepairExhausted (turn_log' q w) ->
  (exists st',
      turn_outcome' q w = Ok st'
      /\ st' !! "error" = Some "Final error: Failed to generate corrected query"
      /\ activations (turn_log' q w)
         = [generate_sql; run_query; handle_error; final_error])
  /\ (forall (state : gmap string string) (w0 : World),
        run_outcome' state w0 <> Raise GraphRecursionError
        /\ length (activations (run_log' state w0)) <= 4
        /\ count_occ Node_eq_dec (activations (run_log' state w0)) handle_error <= 1
        /\ count_occ Node_eq_dec (activations (run_log' state w0)) run_query <= 1).
Proof.
  intros (c & Hc & Hblank). split.
  - destruct (turn_summary q w)
      as (sch & info1 & c1 & dbevs & upd2 & info3 & c3 & e2
          & Hout & Hact & _ & _ & _ & Hrep & _).
    cbv zeta in *. unfold repair_reply in Hc. rewrite Hrep in Hc.
    injection Hc as <-. rewrite Hblank in Hout. cbn [PyStr.truthy] in Hout.
    eexists. split; [exact Hout|]. split; [apply update_same | exact Hact].
  - intros state w0. unfold run_outcome, run_log, invoke.
    cbn [entry_point create_sql_agent]. change recursion_limit with (4 + 21).
    destruct (run_outcomes llm_invoke db_chain_run get_table_info
                           (read_input World agent state) (start w0) 21)
      as (r & e' & evs & Hrun & Htr & Hcases).
    rewrite Hrun. cbn [fst snd]. rewrite Htr. cbn [start trace app].
    destruct Hcases as [[-> [k ->]]|[[-> Hr]|[[-> [k ->]]|[-> (st' & x & -> & _)]]]];
      split_and!; try discriminate; try assumption; cbn; lia.
Qed.

(** C7. Whichever error kind occurs in a turn of [main] (blank generation,
    a statement the database rejects, blank repair), the graph returns a
    dict instead of raising: the failure is routed through the repair step
    to the terminal failure step, the error field of the returned dict is
    ["Final error: "] followed by a non-empty description, and [main] prints
    it. *)
Theorem every_error_kind_ends_in_the_error_field kind q (w : World) :
  occurs kind (turn_log' q w) ->
  exists st' x,
    turn_outcome' q w = Ok st'
    /\ st' !! "error" = Some ("Final error: " +:+ x)
    /\ x <> ""
    /\ activations (turn_log' q w)
       = [generate_sql; run_query; handle_error; final_error]
    /\ In (PyStr.nl +:+ "Error: " +:+ "Final error: " +:+ x) (main_display st').
Proof.
  intros Hkind.
  destruct (turn_summary q w)
    as (sch & info1 & c1 & dbevs & upd2 & info3 & c3 & e2
        & Hout & Hact & _ & _ & _ & Hrep & _ & _ & Hdb & _ & _ & _ & Hblank & Hfail).
  cbv zeta in *.
  eexists _, _. split; [exact Hout|]. split; [apply update_same|].
  assert (Hx : (if PyStr.truthy (PyStr.strip c3) then e2
                else "Failed to generate corrected query") <> "").
  { destruct kind; cbn [occurs] in Hkind.
    - destruct Hkind as (c & Hc & Hc0). unfold generation_reply in Hc.
      rewrite Hrep in Hc. injection Hc as <-.
      destruct Hblank as [_ ->]; [now rewrite Hc0|].
      destruct (PyStr.truthy (PyStr.strip c3)); discriminate.
    - rewrite Hdb in Hkind. specialize (Hfail Hkind).
      destruct (PyStr.truthy (PyStr.strip c3)); [assumption | discriminate].
    - destruct Hkind as (c & Hc & Hc0). unfold repair_reply in Hc.
      rewrite Hrep in Hc. injection Hc as <-. rewrite Hc0. discriminate. }
  split; [exact Hx|]. split; [exact Hact|].
  apply main_display_error; [apply update_same | exact Hx].
Qed.

(** C4, as the code has it. When the model's reply at the generation step
    is blank, [query_node] records ["No SQL query generated"] in the error
    field. The execute step is still activated, once, on a state whose
    [sql] is the empty string [main] initialised it with; it finds no
    statement, and no statement is run against the database in that turn.
    The dict returned carries the error, prefixed with ["Final error: "]
    (the generation error, or the repair error when the repair reply is
    blank too). *)
Theorem blank_generation_executes_no_statement q (w : World) c :
  generation_reply (turn_log' q w) = Some c ->
  PyStr.strip c = "" ->
  exists st1 st',
    handed run_query (turn_log' q w) = [st1]
    /\ st1 !! "error" = Some "No SQL query generated"
    /\ st1 !! "sql" = Some ""
    /\ executed (turn_log' q w) = []
    /\ turn_outcome' q w = Ok st'
    /\ (st' !! "error" = Some "Final error: No SQL query generated"
        \/ st' !! "error" = Some "Final error: Failed to generate corrected query").
Proof.
  intros Hc Hc0.
  destruct (turn_summary q w)
    as (sch & info1 & c1 & dbevs & upd2 & info3 & c3 & e2
        & Hout & _ & _ & Hrun & _ & Hrep & _ & Hex & _ & _ & Hs1 & _ & Hblank & _).
  cbv zeta in *. unfold generation_reply in Hc. rewrite Hrep in Hc.
  injection Hc as <-. rewrite Hc0 in *. cbn [PyStr.truthy] in *.
  destruct (Hblank eq_refl) as [-> ->].
  eexists _, _. split_and!.
  - exact Hrun.
  - apply update_same.
  - exact Hs1.
  - exact Hex.
  - exact Hout.
  - rewrite update_same. destruct (PyStr.truthy (PyStr.strip c3)); auto.
Qed.


(** C8. In every turn of [main] no node writes [query] or [schema]: every
    state dict handed to a node, and the dict returned, bind [query] to the
    question and [schema] to the text [main] read when it built the state,
    and both prompts of the turn are built from that text and that
    question. The schema is nevertheless read from the database three
    times in the turn, not once: by [main], and again by the generation
    and the repair steps, whose [state.get('schema', get_schema())]
    evaluates its default before looking the key up and discards it. *)
Theorem schema_is_passed_unchanged_but_read_three_times q (w : World) :
  exists sch again1 again2 st',
    turn_outcome' q w = Ok st'
    /\ Forall (fun st : gmap string string =>
                 st !! "query" = Some q /\ st !! "schema" = Some sch)
              (node_states (turn_log' q w) ++ [st'])
    /\ (exists err sql,
          llm_prompts (turn_log' q w)
          = [QUERY_PROMPT sch q; ERROR_HANDLING_PROMPT err sch q sql])
    /\ schema_fetches (turn_log' q w) = [sch; again1; again2].
Proof.
  destruct (turn_summary q w)
    as (sch & info1 & c1 & dbevs & upd2 & info3 & c3 & e2
        & Hout & _ & Hst & _ & Hpr & _ & Hfetch & _ & _ & Hex & _).
  cbv zeta in *.
  exists sch, info1, info3. eexists. split; [exact Hout|].
  split; [|split; [eauto | exact Hfetch]].
  rewrite Hst.
  destruct (SQLState_keys q "" "" "" sch "") as (Hq & _ & _ & _ & Hsch & _).
  cbv zeta in Hq, Hsch.
  assert (F1 : forall k, k = "query" \/ k = "schema" ->
             ((if PyStr.truthy (PyStr.strip c1)
               then ({[ "sql" := PyStr.strip c1 ]} : gmap string string)
               else {[ "error" := "No SQL query generated" ]})
              ∪ SQLState q "" "" "" sch "") !! k = SQLState q "" "" "" sch "" !! k).
  { intros k [-> | ->]; destruct (PyStr.truthy (PyStr.strip c1));
      rewrite update_other by discriminate; reflexivity. }
  assert (F2 : forall (m : gmap string string) k, k = "query" \/ k = "schema" ->
             (upd2 ∪ m) !! k = m !! k).
  { intros m k Hk.
    destruct (exec_outcome_keys _ _ _ Hex) as [[_ [r ->]]|[_ (msg & -> & _)]];
      destruct Hk as [-> | ->]; rewrite update_other by discriminate; reflexivity. }
  assert (F3 : forall (m : gmap string string) k, k = "query" \/ k = "schema" ->
             ((if PyStr.truthy (PyStr.strip c3)
               then ({[ "sql" := PyStr.strip c3 ]} : gmap string string)
               else {[ "error" := "Failed to generate corrected query" ]})
              ∪ m) !! k = m !! k).
  { intros m k [-> | ->]; destruct (PyStr.truthy (PyStr.strip c3));
      rewrite update_other by discriminate; reflexivity. }
  repeat constructor;
    rewrite ?update_other by discriminate;
    rewrite ?F3, ?F2, ?F1 by auto; assumption.
Qed.

(** C5, as the code has it. [execute_node] cuts [sql] at every [;] and
    nowhere else, strips each fragment and drops the blank ones, so no
    statement is blank. It runs the remaining statements in order: if none
    raises it returns the outputs joined by newlines under [result];
    otherwise it stops at the first statement that raises, runs nothing
    after it, and returns under [error] a message carrying that statement
    and the database's message. ["SELECT 1; SELECT 2;"] gives the two
    statements ["SELECT 1"] and ["SELECT 2"], in that order; an input
    without [;] gives exactly one statement provided it is not blank. *)
Theorem execute_node_runs_the_statements_in_order
  (state : gmap string string) sql (e : Env World) :
  state !! "sql" = Some sql ->
  PyStr.join ";" (PyStr.split ";" sql) = sql
  /\ Forall (fun frag => PyStr.contains ";" frag = false) (PyStr.split ";" sql)
  /\ Forall (fun stmt => PyStr.truthy stmt = true) (statements sql)
  /\ (exists upd e' evs,
        execute_node World db_chain_run state e = (Ok upd, e')
        /\ trace e' = trace e ++ evs
        /\ answered db_chain_run (world e) evs (world e')
        /\ exec_outcome (statements sql) evs upd
        /\ ((db_errors evs = [] /\ executed evs = statements sql)
            \/ (exists before stmt rest,
                  statements sql = before ++ stmt :: rest
                  /\ executed evs = before ++ [stmt]
                  /\ db_errors evs <> [])))
  /\ statements "SELECT 1; SELECT 2;" = ["SELECT 1"; "SELECT 2"]
  /\ (PyStr.contains ";" sql = false ->
      PyStr.truthy (PyStr.strip sql) = true ->
      statements sql = [PyStr.strip sql]).
Proof.
  intros Hs. split_and!.
  - apply PyStrFacts.join_split.
  - apply PyStrFacts.split_fragments.
  - apply statements_truthy.
  - destruct (execute_node_result db_chain_run state e sql Hs)
      as (upd & e' & evs & Hex & Htr & Hans & Hout).
    exists upd, e', evs. split_and!; try assumption.
    apply (exec_outcome_executed _ _ _ Hout).
  - reflexivity.
  - apply statements_single.
Qed.

End Claims.

(** ** Running the workflow twice *)

Section Idempotence.

Context {World : Type}.
Variable llm_invoke : string -> World -> string * World.
Variable db_chain_run : string -> World -> DbOutcome * World.
Variable get_table_info : World -> string * World.

(** The model is a deterministic stand-in: its reply depends on the prompt
    alone. *)
Hypothesis llm_deterministic :
  forall prompt w1 w2,
    fst (llm_invoke prompt w1) = fst (llm_invoke prompt w2).

(** The database is unchanged: what it answers to a statement, and the
    schema it describes, are the same whenever they are asked for. *)
Hypothesis db_unchanged :
  forall stmt w1 w2,
    fst (db_chain_run stmt w1) = fst (db_chain_run stmt w2).

Hypothesis schema_unchanged :
  forall w1 w2, fst (get_table_info w1) = fst (get_table_info w2).

Lemma oblivious_ret {A} (a : A) : oblivious World (ret World a).
Proof. intros e1 e2. reflexivity. Qed.

Lemma oblivious_raise {A} x : oblivious World (@raise World A x).
Proof. intros e1 e2. reflexivity. Qed.

Lemma oblivious_bind {A B} (m : M World A) (k : A -> M World B) :
  oblivious World m -> (forall a, oblivious World (k a)) ->
  oblivious World (bind World m k).
Proof.
  intros Hm Hk e1 e2. unfold bind. specialize (Hm e1 e2).
  destruct (m e1) as [[a1|x1] e1'], (m e2) as [[a2|x2] e2'];
    cbn [fst] in Hm; try discriminate.
  - injection Hm as ->. apply Hk.
  - injection Hm as ->. reflexivity.
Qed.

Lemma oblivious_emit ev : oblivious World (emit World ev).
Proof. intros e1 e2. reflexivity. Qed.

Lemma oblivious_llm prompt : oblivious World (llm World llm_invoke prompt).
Proof.
  intros e1 e2. unfold llm.
  pose proof (llm_deterministic prompt (world e1) (world e2)) as H.
  destruct (llm_invoke prompt (world e1)), (llm_invoke prompt (world e2)).
  cbn [fst] in *. now subst.
Qed.

Lemma oblivious_db_run stmt : oblivious World (db_run World db_chain_run stmt).
Proof.
  intros e1 e2. unfold db_run.
  pose proof (db_unchanged stmt (world e1) (world e2)) as H.
  destruct (db_chain_run stmt (world e1)), (db_chain_run stmt (world e2)).
  cbn [fst] in *. now subst.
Qed.

Lemma oblivious_get_schema : oblivious World (get_schema World get_table_info).
Proof.
  intros e1 e2. unfold get_schema.
  pose proof (schema_unchanged (world e1) (world e2)) as H.
  destruct (get_table_info (world e1)), (get_table_info (world e2)).
  cbn [fst] in *. now subst.
Qed.

Lemma oblivious_getitem d key : oblivious World (getitem World d key).
Proof.
  unfold getitem. destruct (d !! key);
    [apply oblivious_ret | apply oblivious_raise].
Qed.

Lemma oblivious_run_statements stmts :
  forall results, oblivious World (run_statements World db_chain_run stmts results).
Proof.
  induction stmts as [|stmt rest IH]; intros results; cbn [run_statements].
  - apply oblivious_ret.
  - apply oblivious_bind; [apply oblivious_db_run|].
    intros [out|msg]; [apply IH | apply oblivious_ret].
Qed.

Lemma oblivious_schema_of st :
  oblivious World (schema_of World get_table_info st).
Proof.
  unfold schema_of. apply oblivious_bind; [apply oblivious_get_schema|].
  intros fetched. apply oblivious_ret.
Qed.

Local Ltac oblivious_steps :=
  repeat (apply oblivious_bind;
          [first [ apply oblivious_schema_of | apply oblivious_getitem
                 | apply oblivious_llm ]|];
          intros ?);
  cbv zeta;
  try match goal with
      | |- context [PyStr.truthy ?s] => destruct (PyStr.truthy s)
      end;
  apply oblivious_ret.

Lemma oblivious_action n st :
  oblivious World
    (action World (create_sql_agent World llm_invoke db_chain_run get_table_info) n st).
Proof.
  destruct n; cbn [action create_sql_agent].
  - unfold query_node. oblivious_steps.
  - unfold execute_node. destruct (st !! "sql");
      [apply oblivious_run_statements | apply oblivious_ret].
  - unfold explain_node. oblivious_steps.
  - unfold error_handling_node. oblivious_steps.
  - apply oblivious_ret.
Qed.

Lemma oblivious_run fuel : forall n st,
  oblivious World
    (run World (create_sql_agent World llm_invoke db_chain_run get_table_info)
         fuel n st).
Proof.
  induction fuel as [|fuel IH]; intros n st; cbn [run].
  - apply oblivious_raise.
  - apply oblivious_bind; [apply oblivious_emit|]. intros _.
    apply oblivious_bind; [apply oblivious_action|]. intros upd.
    destruct (edge World _ n (upd ∪ st)); [apply IH | apply oblivious_ret].
Qed.

Lemma oblivious_main_turn q :
  oblivious World (main_turn World llm_invoke db_chain_run get_table_info q).
Proof.
  unfold main_turn, main_state.
  apply oblivious_bind.
  - apply oblivious_bind; [apply oblivious_get_schema|].
    intros schema. apply oblivious_ret.
  - intros st. apply oblivious_run.
Qed.

(** C9. With a model stand-in whose reply depends on the prompt alone and
    a database whose answers do not change, asking the same question again,
    in the world the first turn left behind, returns the same dict: the
    two final states have identical [sql] and identical [result] (indeed
    every field is identical). The same holds from any two worlds. *)
Theorem rerun_yields_identical_sql_and_result q (w : World) :
  turn_outcome World llm_invoke db_chain_run get_table_info q
    (turn_world World llm_invoke db_chain_run get_table_info q w)
  = turn_outcome World llm_invoke db_chain_run get_table_info q w
  /\ (exists first second,
        turn_outcome World llm_invoke db_chain_run get_table_info q w = Ok first
        /\ turn_outcome World llm_invoke db_chain_run get_table_info q
             (turn_world World llm_invoke db_chain_run get_table_info q w)
           = Ok second
        /\ first !! "sql" = second !! "sql"
        /\ first !! "result" = second !! "result")
  /\ (forall w1 w2,
        turn_outcome World llm_invoke db_chain_run get_table_info q w1
        = turn_outcome World llm_invoke db_chain_run get_table_info q w2).
Proof.
  assert (Hany : forall w1 w2,
             turn_outcome World llm_invoke db_chain_run get_table_info q w1
             = turn_outcome World llm_invoke db_chain_run get_table_info q w2).
  { intros w1 w2. unfold turn_outcome. apply oblivious_main_turn. }
  split; [apply Hany|]. split; [|exact Hany].
  destruct (turn_summary llm_invoke db_chain_run get_table_info q w)
    as (sch & info1 & c1 & dbevs & upd2 & info3 & c3 & e2 & Hout & _).
  cbv zeta in Hout.
  eexists _, _. split; [exact Hout|]. split; [|split; reflexivity].
  rewrite <- Hout. apply Hany.
Qed.

End Idempotence.

(** ** Concrete runs *)

(** C1. A turn of [main] whose first execution succeeds. The model answers
    ["SELECT 1"], the database runs it and returns rows, no statement
    raises. The run is nevertheless routed to the repair step and ends in
    the terminal failure step: [explain_query] is never activated, the
    explanation is still the empty string [main] put there, the error field
    is ["Final error: "], and [sql] has been overwritten by the text the
    repair step obtained, which was never executed. *)
Theorem first_success_is_sent_to_repair_and_never_explained :
  executed (Stub.log "how many?" ["SELECT 1"; "SELECT 2"]) = ["SELECT 1"]
  /\ db_errors (Stub.log "how many?" ["SELECT 1"; "SELECT 2"]) = []
  /\ activations (Stub.log "how many?" ["SELECT 1"; "SELECT 2"])
     = [generate_sql; run_query; handle_error; final_error]
  /\ Stub.final "result" "how many?" ["SELECT 1"; "SELECT 2"]
     = Some "rows(SELECT 1)"
  /\ Stub.final "explanation" "how many?" ["SELECT 1"; "SELECT 2"] = Some ""
  /\ Stub.final "error" "how many?" ["SELECT 1"; "SELECT 2"]
     = Some "Final error: "
  /\ Stub.final "sql" "how many?" ["SELECT 1"; "SELECT 2"] = Some "SELECT 2".
Proof. vm_compute. repeat split. Qed.

(** C3. A turn of [main] whose first execution fails and whose repair
    reply, ["SELECT 3"], is a statement the database accepts. The repaired
    statement is never run: the repair step is followed by the terminal
    failure step, only the original statement was executed, and the error
    field still carries the first failure. Only [sql] is as the claim has
    it, equal to the repaired text. *)
Theorem repaired_query_is_never_run_again :
  Stub.db_chain_run "SELECT 3" [] = (Rows "rows(SELECT 3)", [])
  /\ executed (Stub.log "how many?" ["DROP TABLE t"; "SELECT 3"])
     = ["DROP TABLE t"]
  /\ activations (Stub.log "how many?" ["DROP TABLE t"; "SELECT 3"])
     = [generate_sql; run_query; handle_error; final_error]
  /\ Stub.final "sql" "how many?" ["DROP TABLE t"; "SELECT 3"] = Some "SELECT 3"
  /\ Stub.final "result" "how many?" ["DROP TABLE t"; "SELECT 3"] = Some ""
  /\ Stub.final "error" "how many?" ["DROP TABLE t"; "SELECT 3"]
     = Some ("Final error: Error executing statement: DROP TABLE t"
             +:+ PyStr.nl +:+ "Error: syntax error").
Proof. vm_compute. repeat split. Qed.

(** Against C4 as stated: the model's generation reply is blank, and the
    execute step is activated all the same. *)
Lemma blank_generation_still_activates_execute :
  generation_reply (Stub.log "how many?" ["   "; "SELECT 3"]) = Some "   "
  /\ PyStr.strip "   " = ""
  /\ In run_query (activations (Stub.log "how many?" ["   "; "SELECT 3"])).
Proof. vm_compute. repeat split. right. left. reflexivity. Qed.

(** Against C5 as stated: the empty string has no semicolon, and
    [execute_node] runs no statement for it, not one. *)
Lemma no_semicolon_may_mean_no_statement :
  PyStr.contains ";" "" = false
  /\ statements "" = []
  /\ length (Stub.executed_by "") <> 1.
Proof. vm_compute. repeat split. discriminate. Qed.


(** ** The theorems above, at concrete inputs *)

(** The state [main] builds, with a successful result merged over it. *)
Lemma dispatch_looks_at_key_presence_only_witness :
  is_Some (SQLState "how many?" "" "" "" "CREATE TABLE t (x INT)" "" !! "error")
  /\ edge Stub.World
          (create_sql_agent Stub.World Stub.llm_invoke Stub.db_chain_run
                            Stub.get_table_info)
          run_query
          ({[ "result" := "rows(SELECT 1)" ]}
           ∪ SQLState "how many?" "" "" "" "CREATE TABLE t (x INT)" "")
     = Goto handle_error.
Proof.
  assert (H : is_Some (SQLState "how many?" "" "" "" "CREATE TABLE t (x INT)" ""
                       !! "error"))
    by (exists ""; vm_compute; reflexivity).
  split; [exact H|].
  apply (dispatch_looks_at_key_presence_only
           Stub.llm_invoke Stub.db_chain_run Stub.get_table_info
           (SQLState "how many?" "" "" "" "CREATE TABLE t (x INT)" "")
           {[ "result" := "rows(SELECT 1)" ]} H).
Defined.

(** A turn whose first statement is rejected and whose repair reply is
    blank. *)
Lemma failed_repair_ends_the_run_witness :
  occurs RepairExhausted (Stub.log "how many?" ["DROP TABLE t"; "   "])
  /\ Stub.final "error" "how many?" ["DROP TABLE t"; "   "]
     = Some "Final error: Failed to generate corrected query".
Proof.
  assert (H : occurs RepairExhausted (Stub.log "how many?" ["DROP TABLE t"; "   "]))
    by (exists "   "; split; vm_compute; reflexivity).
  split; [exact H|].
  destruct (failed_repair_ends_the_run
              Stub.llm_invoke Stub.db_chain_run Stub.get_table_info
              "how many?" ["DROP TABLE t"; "   "] H)
    as [(st' & Hout & Herr & _) _].
  unfold Stub.final, Stub.outcome. rewrite Hout. exact Herr.
Defined.

(** A turn whose first statement is rejected by the database. *)
Lemma every_error_kind_ends_in_the_error_field_witness :
  occurs ExecutionFailure (Stub.log "how many?" ["DROP TABLE t"; "SELECT 3"])
  /\ exists x,
       Stub.final "error" "how many?" ["DROP TABLE t"; "SELECT 3"]
       = Some ("Final error: " +:+ x)
       /\ x <> "".
Proof.
  assert (H : occurs ExecutionFailure
                (Stub.log "how many?" ["DROP TABLE t"; "SELECT 3"]))
    by (vm_compute; discriminate).
  split; [exact H|].
  destruct (every_error_kind_ends_in_the_error_field
              Stub.llm_invoke Stub.db_chain_run Stub.get_table_info
              ExecutionFailure "how many?" ["DROP TABLE t"; "SELECT 3"] H)
    as (st' & x & Hout & Herr & Hx & _).
  exists x. unfold Stub.final, Stub.outcome. rewrite Hout. split; assumption.
Defined.

(** A turn whose generation reply is three spaces. *)
Lemma blank_generation_executes_no_statement_witness :
  generation_reply (Stub.log "how many?" ["   "; "SELECT 3"]) = Some "   "
  /\ PyStr.strip "   " = ""
  /\ executed (Stub.log "how many?" ["   "; "SELECT 3"]) = [].
Proof.
  assert (H1 : generation_reply (Stub.log "how many?" ["   "; "SELECT 3"])
               = Some "   ") by (vm_compute; reflexivity).
  assert (H2 : PyStr.strip "   " = "") by reflexivity.
  split; [exact H1|]. split; [exact H2|].
  destruct (blank_generation_executes_no_statement
              Stub.llm_invoke Stub.db_chain_run Stub.get_table_info
              "how many?" ["   "; "SELECT 3"] "   " H1 H2)
    as (st1 & st' & _ & _ & _ & Hex & _).
  exact Hex.
Defined.


(** The two-statement input of the specification. *)
Lemma execute_node_runs_the_statements_in_order_witness :
  ({[ "sql" := "SELECT 1; SELECT 2;" ]} : gmap string string) !! "sql"
  = Some "SELECT 1; SELECT 2;"
  /\ exists upd e' evs,
       execute_node Stub.World Stub.db_chain_run
                    {[ "sql" := "SELECT 1; SELECT 2;" ]} (start [])
       = (Ok upd, e')
       /\ trace e' = trace (start ([] : Stub.World)) ++ evs
       /\ answered Stub.db_chain_run [] evs (world e')
       /\ exec_outcome (statements "SELECT 1; SELECT 2;") evs upd
       /\ ((db_errors evs = []
            /\ executed evs = statements "SELECT 1; SELECT 2;")
           \/ (exists before stmt rest,
                 statements "SELECT 1; SELECT 2;" = before ++ stmt :: rest
                 /\ executed evs = before ++ [stmt]
                 /\ db_errors evs <> [])).
Proof.
  assert (H : ({[ "sql" := "SELECT 1; SELECT 2;" ]} : gmap string string) !! "sql"
              = Some "SELECT 1; SELECT 2;") by (vm_compute; reflexivity).
  split; [exact H|].
  apply (execute_node_runs_the_statements_in_order
           Stub.db_chain_run {[ "sql" := "SELECT 1; SELECT 2;" ]}
           "SELECT 1; SELECT 2;" (start ([] : Stub.World)) H).
Defined.

(** Collaborators that answer by the text alone while their world moves
    on at every call. *)
Lemma rerun_yields_identical_sql_and_result_witness :
  (forall prompt w1 w2,
      fst (Canned.llm_invoke prompt w1) = fst (Canned.llm_invoke prompt w2))
  /\ (forall stmt w1 w2,
        fst (Canned.db_chain_run stmt w1) = fst (Canned.db_chain_run stmt w2))
  /\ (forall w1 w2,
        fst (Canned.get_table_info w1) = fst (Canned.get_table_info w2))
  /\ turn_outcome Canned.World Canned.llm_invoke Canned.db_chain_run
                  Canned.get_table_info "how many?"
                  (turn_world Canned.World Canned.llm_invoke Canned.db_chain_run
                              Canned.get_table_info "how many?" 0%nat)
     = turn_outcome Canned.World Canned.llm_invoke Canned.db_chain_run
                    Canned.get_table_info "how many?" 0%nat.
Proof.
  assert (H1 : forall prompt w1 w2,
             fst (Canned.llm_invoke prompt w1) = fst (Canned.llm_invoke prompt w2))
    by (intros; reflexivity).
  assert (H2 : forall stmt w1 w2,
             fst (Canned.db_chain_run stmt w1) = fst (Canned.db_chain_run stmt w2))
    by (intros; reflexivity).
  assert (H3 : forall w1 w2,
             fst (Canned.get_table_info w1) = fst (Canned.get_table_info w2))
    by (intros; reflexivity).
  split; [exact H1|]. split; [exact H2|]. split; [exact H3|].
  apply (rerun_yields_identical_sql_and_result
           Canned.llm_invoke Canned.db_chain_run Canned.get_table_info
           H1 H2 H3 "how many?" 0%nat).
Defined.

(** * Further properties of the code *)

(** ** More on stripping and splitting *)

Module PyStrMore.

Import PyStr.

Lemma rstrip_cons c s :
  is_space c = false -> rstrip (String c s) = String c (rstrip s).
Proof. intros Hc. cbn [rstrip]. rewrite Hc. now destruct (rstrip s). Qed.

Lemma lstrip_head s c r : lstrip s = String c r -> is_space c = false.
Proof.
  induction s as [|a s IH]; cbn [lstrip]; [discriminate|].
  destruct (is_space a) eqn:Ha; [exact IH|].
  intros H. injection H as <- _. exact Ha.
Qed.

Lemma rstrip_idem s : rstrip (rstrip s) = rstrip s.
Proof.
  induction s as [|a s IH]; [reflexivity|]. cbn [rstrip].
  destruct (rstrip s) as [|d r] eqn:Hr.
  - destruct (is_space a) eqn:Ha; [reflexivity|].
    cbn [rstrip]. now rewrite Ha.
  - cbn [rstrip]. cbn [rstrip] in IH. rewrite IH. reflexivity.
Qed.

(** What [strip] returns starts with no whitespace ... *)
Lemma strip_head s c r : strip s = String c r -> is_space c = false.
Proof.
  unfold strip. destruct (lstrip s) as [|d t] eqn:Hl; [discriminate|].
  pose proof (lstrip_head _ _ _ Hl) as Hd.
  rewrite (rstrip_cons _ _ Hd). intros H. injection H as <- _. exact Hd.
Qed.

(** ... and ends with none. *)
Lemma rstrip_last s : forall init c,
  rstrip s = init +:+ String c "" -> is_space c = false.
Proof.
  induction s as [|a s IH]; intros init c; cbn [rstrip].
  - destruct init; discriminate.
  - destruct (rstrip s) as [|d r] eqn:Hr.
    + destruct (is_space a) eqn:Ha.
      * destruct init; discriminate.
      * destruct init as [|b init]; cbn; intros H.
        -- injection H as <-. exact Ha.
        -- injection H as _ H. destruct init; discriminate.
    + destruct init as [|b init]; cbn; intros H; [discriminate|].
      injection H as _ H. exact (IH _ _ H).
Qed.

Lemma strip_idem s : strip (strip s) = strip s.
Proof.
  unfold strip at 1.
  assert (Hl : lstrip (strip s) = strip s).
  { destruct (strip s) as [|c r] eqn:Hs; [reflexivity|].
    cbn [lstrip]. now rewrite (strip_head _ _ _ Hs). }
  rewrite Hl. unfold strip. apply rstrip_idem.
Qed.

Lemma contains_lstrip c s : contains c s = false -> contains c (lstrip s) = false.
Proof.
  induction s as [|a s IH]; [reflexivity|]. cbn [lstrip].
  intros H. destruct (is_space a); [|exact H].
  cbn [contains] in H. apply orb_false_iff in H as [_ H]. auto.
Qed.

Lemma contains_rstrip c s : contains c s = false -> contains c (rstrip s) = false.
Proof.
  induction s as [|a s IH]; [reflexivity|]. cbn [contains rstrip].
  intros H. apply orb_false_iff in H as [Ha Hs]. specialize (IH Hs).
  destruct (rstrip s) as [|d r].
  - destruct (is_space a); [reflexivity|]. cbn. now rewrite Ha.
  - cbn [contains] in *. now rewrite Ha, IH.
Qed.

(** [strip] takes characters away, it brings none in. *)
Lemma contains_strip c s : contains c s = false -> contains c (strip s) = false.
Proof. intros H. unfold strip. now apply contains_rstrip, contains_lstrip. Qed.

(** Splitting a text made of two parts around a separator gives the
    fragments of the first part, then those of the second. *)
Lemma split_app sep a b :
  split sep (a +:+ String sep b) = split sep a ++ split sep b.
Proof.
  induction a as [|c a IH].
  - change ("" +:+ String sep b) with (String sep b).
    cbn [split app]. now rewrite Ascii.eqb_refl.
  - change (String c a +:+ String sep b) with (String c (a +:+ String sep b)).
    cbn [split]. rewrite IH. destruct (Ascii.eqb c sep); [reflexivity|].
    pose proof (PyStrFacts.split_nonempty sep a) as Hne.
    destruct (split sep a) as [|f fs]; [contradiction | reflexivity].
Qed.

(** Fragments free of the separator, joined by it, split back into
    themselves. *)
Lemma split_join sep parts :
  parts <> [] ->
  Forall (fun frag => contains sep frag = false) parts ->
  split sep (join (String sep "") parts) = parts.
Proof.
  induction parts as [|p ps IH]; [contradiction|]. intros _ Hall.
  inversion Hall as [|? ? Hp Hps]; subst.
  destruct ps as [|q ps].
  - cbn [join]. now apply PyStrFacts.split_no_sep.
  - rewrite PyStrFacts.join_cons.
    change (String sep "" +:+ join (String sep "") (q :: ps))
      with (String sep (join (String sep "") (q :: ps))).
    rewrite split_app, IH by (discriminate || assumption).
    now rewrite (PyStrFacts.split_no_sep _ _ Hp).
Qed.

End PyStrMore.

(** ** What [execute_node] hands to the database *)

Lemma statements_clean sql :
  Forall (fun stmt =>
            stmt <> ""
            /\ PyStr.strip stmt = stmt
            /\ PyStr.contains ";" stmt = false
            /\ (forall c rest, stmt = String c rest -> PyStr.is_space c = false)
            /\ (forall init c, stmt = init +:+ String c "" ->
                               PyStr.is_space c = false))
         (statements sql).
Proof.
  unfold statements. apply List.Forall_forall. intros stmt Hin.
  apply List.in_map_iff in Hin as (frag & <- & Hfrag).
  apply List.filter_In in Hfrag as [Hfrag Hnb].
  split_and!.
  - now apply PyStrFacts.truthy_nonempty.
  - apply PyStrMore.strip_idem.
  - apply PyStrMore.contains_strip.
    pose proof (PyStrFacts.split_fragments ";" sql) as Hall.
    rewrite List.Forall_forall in Hall. now apply Hall.
  - intros c rest. apply PyStrMore.strip_head.
  - intros init c. unfold PyStr.strip. apply PyStrMore.rstrip_last.
Qed.

Lemma statements_app a b :
  statements (a +:+ ";" +:+ b) = statements a ++ statements b.
Proof.
  unfold statements. change (";" +:+ b) with (String ";" b).
  rewrite PyStrMore.split_app, List.filter_app, List.map_app. reflexivity.
Qed.

Lemma clean_list_is_its_own_statements (stmts : list string) :
  Forall (fun stmt => stmt <> "" /\ PyStr.strip stmt = stmt) stmts ->
  List.map PyStr.strip
    (List.filter (fun stmt => PyStr.truthy (PyStr.strip stmt)) stmts)
  = stmts.
Proof.
  induction 1 as [|stmt stmts [Hne Hfix] _ IH]; [reflexivity|].
  cbn [List.filter]. rewrite Hfix.
  apply PyStrFacts.truthy_nonempty in Hne. rewrite Hne.
  cbn [List.map]. now rewrite Hfix, IH.
Qed.

Lemma statements_canonical sql :
  statements (PyStr.join ";" (statements sql)) = statements sql.
Proof.
  pose proof (statements_clean sql) as Hclean.
  destruct (statements sql) as [|stmt stmts] eqn:Hst; [reflexivity|].
  unfold statements at 1.
  rewrite PyStrMore.split_join.
  - apply clean_list_is_its_own_statements.
    eapply Forall_impl; [exact Hclean|]. cbn. tauto.
  - discriminate.
  - eapply Forall_impl; [exact Hclean|]. cbn. tauto.
Qed.

Section Execution.

Context {World : Type}.
Variable db_chain_run : string -> World -> DbOutcome * World.

Lemma run_statements_fail_fast l1 l2 : forall acc (e : Env World) upd e1,
  run_statements World db_chain_run l1 acc e = (Ok upd, e1) ->
  is_Some (upd !! "error") ->
  run_statements World db_chain_run (l1 ++ l2) acc e = (Ok upd, e1).
Proof.
  induction l1 as [|stmt l1 IH]; intros acc e upd e1 Hrun Herr.
  - cbn in Hrun. injection Hrun as <- <-.
    destruct Herr as [v Hv]. rewrite lookup_singleton_ne in Hv; discriminate.
  - cbn [app run_statements] in *. unfold bind, db_run in *.
    destruct (db_chain_run stmt (world e)) as [[out|msg] w1]; [|exact Hrun].
    now apply IH.
Qed.

Lemma run_statements_continue l1 l2 : forall acc (e : Env World) upd e1,
  run_statements World db_chain_run l1 acc e = (Ok upd, e1) ->
  upd !! "error" = None ->
  exists outs,
    run_statements World db_chain_run (l1 ++ l2) acc e
    = run_statements World db_chain_run l2 (acc ++ outs) e1.
Proof.
  induction l1 as [|stmt l1 IH]; intros acc e upd e1 Hrun Herr.
  - cbn in Hrun. injection Hrun as <- <-. exists []. now rewrite app_nil_r.
  - cbn [app run_statements] in *. unfold bind, db_run in *.
    destruct (db_chain_run stmt (world e)) as [[out|msg] w1].
    + destruct (IH _ _ _ _ Hrun Herr) as [outs Houts].
      exists (out :: outs). rewrite Houts. now rewrite <- app_assoc.
    + injection Hrun as <- <-. rewrite lookup_singleton_eq in Herr. discriminate.
Qed.

(** The outputs collected before a stretch of statements change the text
    of its result, and nothing else. *)
Lemma run_statements_acc stmts : forall acc acc' (e : Env World),
  exists upd upd' e',
    run_statements World db_chain_run stmts acc e = (Ok upd, e')
    /\ run_statements World db_chain_run stmts acc' e = (Ok upd', e')
    /\ upd !! "error" = upd' !! "error".
Proof.
  induction stmts as [|stmt stmts IH]; intros acc acc' e.
  - eexists _, _, _. split_and!; reflexivity.
  - cbn [run_statements]. unfold bind, db_run.
    destruct (db_chain_run stmt (world e)) as [[out|msg] w1].
    + apply IH.
    + eexists _, _, _. split_and!; reflexivity.
Qed.

(** X1. Every statement [execute_node] hands to the database, for whatever
    state, is non-empty, is unchanged by a further [strip], contains no
    semicolon, and neither starts nor ends with a whitespace character. *)
Theorem every_statement_run_is_clean (state : gmap string string) (w : World) :
  Forall (fun stmt =>
            stmt <> ""
            /\ PyStr.strip stmt = stmt
            /\ PyStr.contains ";" stmt = false
            /\ (forall c rest, stmt = String c rest -> PyStr.is_space c = false)
            /\ (forall init c, stmt = init +:+ String c "" ->
                               PyStr.is_space c = false))
         (executed (trace (snd (execute_node World db_chain_run state (start w))))).
Proof.
  destruct (state !! "sql") as [sql|] eqn:Hs.
  - destruct (execute_node_result db_chain_run state (start w) sql Hs)
      as (upd & e' & evs & Hex & Htr & _ & Hout).
    rewrite Hex. cbn [snd]. rewrite Htr. cbn [start trace app].
    pose proof (statements_clean sql) as Hclean.
    destruct (exec_outcome_executed _ _ _ Hout)
      as [[_ ->]|(before & stmt & rest & Heq & -> & _)]; [exact Hclean|].
    rewrite Heq in Hclean.
    apply Forall_app in Hclean as [Hb Hr]. apply Forall_app. split; [exact Hb|].
    inversion Hr; subst. now repeat constructor.
  - unfold execute_node. rewrite Hs. constructor.
Qed.

(** X3. Joining the statements of a text with semicolons gives a text with
    the same statements, and [execute_node] does on it exactly what it does
    on the original: same dict returned, same world, same log. *)
Theorem rejoined_statements_execute_alike
  (state state' : gmap string string) sql (e : Env World) :
  state !! "sql" = Some sql ->
  state' !! "sql" = Some (PyStr.join ";" (statements sql)) ->
  statements (PyStr.join ";" (statements sql)) = statements sql
  /\ execute_node World db_chain_run state' e
     = execute_node World db_chain_run state e.
Proof.
  intros Hs Hs'. split; [apply statements_canonical|].
  unfold execute_node. rewrite Hs, Hs'. now rewrite statements_canonical.
Qed.

(** X4. Executing [a;b]. If executing [a] alone ends in an error, executing
    [a;b] does exactly the same and runs nothing of [b]. If executing [a]
    alone succeeds, executing [a;b] goes on with the statements of [b] in
    the world [a] left behind: it ends in the same world and log as [b]
    executed there, with an error exactly when [b] has one, and the same
    one. *)
Theorem execute_node_on_two_parts
  (state_a state_ab : gmap string string) a b (e : Env World) upd e1 :
  state_a !! "sql" = Some a ->
  state_ab !! "sql" = Some (a +:+ ";" +:+ b) ->
  execute_node World db_chain_run state_a e = (Ok upd, e1) ->
  (is_Some (upd !! "error") ->
   execute_node World db_chain_run state_ab e = (Ok upd, e1))
  /\ (upd !! "error" = None ->
      forall state_b : gmap string string,
        state_b !! "sql" = Some b ->
        exists upd_b upd_ab e2,
          execute_node World db_chain_run state_b e1 = (Ok upd_b, e2)
          /\ execute_node World db_chain_run state_ab e = (Ok upd_ab, e2)
          /\ upd_ab !! "error" = upd_b !! "error").
Proof.
  intros Ha Hab Hrun. unfold execute_node in *. rewrite Ha in Hrun.
  rewrite Hab, statements_app. split.
  - intros Herr. now apply run_statements_fail_fast.
  - intros Hok state_b Hb. rewrite Hb.
    destruct (run_statements_continue _ (statements b) _ _ _ _ Hrun Hok)
      as [outs ->].
    destruct (run_statements_acc (statements b) [] ([] ++ outs) e1)
      as (upd_b & upd_ab & e2 & H1 & H2 & Heq).
    exists upd_b, upd_ab, e2. split_and!; [exact H1 | exact H2 | now symmetry].
Qed.

End Execution.

(** X2. The statements of two texts put side by side with a semicolon
    between them are the statements of the first followed by those of the
    second: no statement is lost, merged or reordered at the seam. *)
Theorem statements_of_two_parts a b :
  statements (a +:+ ";" +:+ b) = statements a ++ statements b.
Proof. apply statements_app. Qed.

(** ** Runs of the agent from an arbitrary state *)

Lemma quiet_nil : quiet [].
Proof. repeat split. Qed.

Lemma exec_outcome_is_quiet stmts evs upd : exec_outcome stmts evs upd -> quiet evs.
Proof. apply exec_outcome_quiet. Qed.

(** A quiet stretch in the middle of a log can be skipped by every reader
    but [executed] and [db_errors], which see nothing else in a run's log
    than such stretches. *)
Lemma quiet_skip dbevs l1 l2 :
  quiet dbevs ->
  activations ((l1 ++ dbevs) ++ l2) = activations l1 ++ activations l2
  /\ node_states ((l1 ++ dbevs) ++ l2) = node_states l1 ++ node_states l2
  /\ llm_prompts ((l1 ++ dbevs) ++ l2) = llm_prompts l1 ++ llm_prompts l2
  /\ llm_replies ((l1 ++ dbevs) ++ l2) = llm_replies l1 ++ llm_replies l2
  /\ schema_fetches ((l1 ++ dbevs) ++ l2)
     = schema_fetches l1 ++ schema_fetches l2
  /\ (forall n, handed n ((l1 ++ dbevs) ++ l2) = handed n l1 ++ handed n l2)
  /\ executed ((l1 ++ dbevs) ++ l2)
     = executed l1 ++ executed dbevs ++ executed l2
  /\ db_errors ((l1 ++ dbevs) ++ l2)
     = db_errors l1 ++ db_errors dbevs ++ db_errors l2.
Proof.
  intros (H1 & H2 & H3 & H4 & H5 & H6).
  unfold activations, node_states, llm_prompts, llm_replies, schema_fetches,
    handed, executed, db_errors in *.
  rewrite !omap_app, H1, H2, H3, H4, H5, <- !app_assoc.
  split_and!; try reflexivity.
  intros n. now rewrite !omap_app, H6.
Qed.

(** What the readers find in the three kinds of log a run can leave. *)
Lemma explain_log_readers st st1 st2 info1 p1 c1 p4 c4 dbevs :
  quiet dbevs ->
  let log := ([EvNode generate_sql st; EvSchema info1; EvLLM p1 c1;
               EvNode run_query st1] ++ dbevs)
             ++ [EvNode explain_query st2; EvLLM p4 c4] in
  reads log [generate_sql; run_query; explain_query]
        [st; st1; st2]
        [p1; p4] [c1; c4] [info1]
        [] dbevs.
Proof.
  intros Hq log. subst log.
  destruct (quiet_skip dbevs
              [EvNode generate_sql st; EvSchema info1; EvLLM p1 c1;
               EvNode run_query st1]
              [EvNode explain_query st2; EvLLM p4 c4] Hq)
    as (R1 & R2 & R3 & R4 & R5 & R6 & R7 & R8).
  unfold reads. rewrite R1, R2, R3, R4, R5, R6, R7, R8. cbn.
  rewrite !app_nil_r. split_and!; reflexivity.
Qed.

Lemma raise_log_readers st st1 st2 info1 p1 c1 info3 dbevs :
  quiet dbevs ->
  let log := ([EvNode generate_sql st; EvSchema info1; EvLLM p1 c1;
               EvNode run_query st1] ++ dbevs)
             ++ [EvNode handle_error st2; EvSchema info3] in
  reads log [generate_sql; run_query; handle_error]
        [st; st1; st2]
        [p1] [c1] [info1; info3]
        [st2] dbevs.
Proof.
  intros Hq log. subst log.
  destruct (quiet_skip dbevs
              [EvNode generate_sql st; EvSchema info1; EvLLM p1 c1;
               EvNode run_query st1]
              [EvNode handle_error st2; EvSchema info3] Hq)
    as (R1 & R2 & R3 & R4 & R5 & R6 & R7 & R8).
  unfold reads. rewrite R1, R2, R3, R4, R5, R6, R7, R8. cbn.
  rewrite !app_nil_r. split_and!; reflexivity.
Qed.

Lemma final_log_readers st st1 st2 st3 info1 p1 c1 info3 p3 c3 dbevs :
  quiet dbevs ->
  let log := ([EvNode generate_sql st; EvSchema info1; EvLLM p1 c1;
               EvNode run_query st1] ++ dbevs)
             ++ [EvNode handle_error st2; EvSchema info3; EvLLM p3 c3;
                 EvNode final_error st3] in
  reads log [generate_sql; run_query; handle_error; final_error]
        [st; st1; st2; st3]
        [p1; p3] [c1; c3] [info1; info3]
        [st2] dbevs.
Proof.
  intros Hq log. subst log.
  destruct (quiet_skip dbevs
              [EvNode generate_sql st; EvSchema info1; EvLLM p1 c1;
               EvNode run_query st1]
              [EvNode handle_error st2; EvSchema info3; EvLLM p3 c3;
               EvNode final_error st3] Hq)
    as (R1 & R2 & R3 & R4 & R5 & R6 & R7 & R8).
  unfold reads. rewrite R1, R2, R3, R4, R5, R6, R7, R8. cbn.
  rewrite !app_nil_r. split_and!; reflexivity.
Qed.

Section Paths.

Context {World : Type}.
Variable llm_invoke : string -> World -> string * World.
Variable db_chain_run : string -> World -> DbOutcome * World.
Variable get_table_info : World -> string * World.

Local Abbreviation agent :=
  (create_sql_agent World llm_invoke db_chain_run get_table_info).

Local Abbreviation gen_update c :=
  (if PyStr.truthy (PyStr.strip c)
   then ({[ "sql" := PyStr.strip c ]} : gmap string string)
   else {[ "error" := "No SQL query generated" ]}).

Local Abbreviation repair_update c :=
  (if PyStr.truthy (PyStr.strip c)
   then ({[ "sql" := PyStr.strip c ]} : gmap string string)
   else {[ "error" := "Failed to generate corrected query" ]}).

Lemma query_node_without_query st (e : Env World) :
  st !! "query" = None ->
  exists info w',
    query_node World llm_invoke get_table_info st e
    = (Raise (KeyError "query"), mkEnv w' (trace e ++ [EvSchema info])).
Proof.
  intros Hq. unfold query_node, schema_of, bind, get_schema, getitem, ret, raise.
  destruct (get_table_info (world e)) as [info w1]. simpl. rewrite Hq.
  eauto.
Qed.

Lemma explain_node_result st (e : Env World) sql :
  st !! "sql" = Some sql ->
  exists c w',
    explain_node World llm_invoke st e
    = (Ok {[ "explanation" := c ]},
       mkEnv w' (trace e ++ [EvLLM (EXPLANATION_PROMPT sql) c])).
Proof.
  intros Hs. unfold explain_node, bind, getitem, llm, ret. rewrite Hs.
  destruct (llm_invoke _ (world e)) as [c w1]. eauto.
Qed.

Lemma error_handling_node_without_sql st (e : Env World) err q :
  st !! "error" = Some err -> st !! "query" = Some q -> st !! "sql" = None ->
  exists info w',
    error_handling_node World llm_invoke get_table_info st e
    = (Raise (KeyError "sql"), mkEnv w' (trace e ++ [EvSchema info])).
Proof.
  intros He Hq Hs.
  unfold error_handling_node, schema_of, bind, get_schema, getitem, ret, raise.
  destruct (get_table_info (world e)) as [info w1]. simpl.
  rewrite He, Hq, Hs. eauto.
Qed.

(** The execute step on any state: a dict, never an exception, and a quiet
    stretch of log. *)
Lemma execute_node_any st (e : Env World) :
  exists upd e' dbevs,
    execute_node World db_chain_run st e = (Ok upd, e')
    /\ trace e' = trace e ++ dbevs
    /\ quiet dbevs
    /\ match st !! "sql" with
       | Some sql => exec_outcome (statements sql) dbevs upd
       | None => dbevs = [] /\ upd = {[ "error" := "'sql'" ]}
       end.
Proof.
  destruct (st !! "sql") as [sql|] eqn:Hs.
  - destruct (execute_node_result db_chain_run st e sql Hs)
      as (upd & e' & evs & Hex & Htr & _ & Hout).
    exists upd, e', evs. split_and!; try assumption.
    now apply exec_outcome_is_quiet in Hout.
  - unfold execute_node. rewrite Hs.
    exists {[ "error" := "'sql'" ]}, e, []. rewrite app_nil_r.
    split_and!; auto using quiet_nil.
Qed.

(** X18. The execute step never raises, whatever state it is given. It
    returns a dict with exactly one key: [result] when the state has an
    [sql] and no statement raised, and otherwise [error], with a non-empty
    text. Between its start and its end the log grows by database calls
    only. *)
Theorem execute_node_returns_result_or_error
  (st : gmap string string) (e : Env World) :
  exists upd e' dbevs,
    execute_node World db_chain_run st e = (Ok upd, e')
    /\ trace e' = trace e ++ dbevs
    /\ quiet dbevs
    /\ ((is_Some (st !! "sql") /\ db_errors dbevs = []
         /\ exists r, upd = {[ "result" := r ]})
        \/ ((st !! "sql" = None \/ db_errors dbevs <> [])
            /\ exists m, upd = {[ "error" := m ]} /\ m <> "")).
Proof.
  destruct (execute_node_any st e) as (upd & e' & dbevs & Hex & Htr & Hq & Hout).
  exists upd, e', dbevs. split_and!; try assumption.
  destruct (st !! "sql") as [sql|].
  - destruct (exec_outcome_keys _ _ _ Hout) as [[Hnone Hr]|[Hsome Hm]];
      [left | right]; auto.
  - destruct Hout as [_ ->]. right. split; [now left|].
    eexists. split; [reflexivity | discriminate].
Qed.

(** Every run from a state that binds [query], in full: what is generated
    and executed, then one of three ways to end. *)
Lemma run_paths st (e : Env World) q fuel :
  st !! "query" = Some q ->
  exists info1 c1 dbevs upd2,
    let st1 := gen_update c1 ∪ st in
    let st2 := upd2 ∪ st1 in
    let head := [EvNode generate_sql st; EvSchema info1;
                 EvLLM (QUERY_PROMPT (default info1 (st !! "schema")) q) c1;
                 EvNode run_query st1] ++ dbevs in
    quiet dbevs
    /\ match st1 !! "sql" with
       | Some sql => exec_outcome (statements sql) dbevs upd2
       | None => dbevs = [] /\ upd2 = {[ "error" := "'sql'" ]}
       end
    /\ ((st2 !! "error" = None
         /\ exists sql c4 e',
              st2 !! "sql" = Some sql
              /\ run World agent (4 + fuel) generate_sql st e
                 = (Ok ({[ "explanation" := c4 ]} ∪ st2), e')
              /\ trace e'
                 = trace e ++ head
                   ++ [EvNode explain_query st2; EvLLM (EXPLANATION_PROMPT sql) c4])
        \/ (st2 !! "sql" = None
            /\ exists err2 info3 e',
                 st2 !! "error" = Some err2
                 /\ run World agent (4 + fuel) generate_sql st e
                    = (Raise (KeyError "sql"), e')
                 /\ trace e'
                    = trace e ++ head ++ [EvNode handle_error st2; EvSchema info3])
        \/ (exists err2 sql info3 c3 e',
              let st3 := repair_update c3 ∪ st2 in
              st2 !! "error" = Some err2
              /\ st2 !! "sql" = Some sql
              /\ run World agent (4 + fuel) generate_sql st e
                 = (Ok ({[ "error" := "Final error: "
                                      +:+ (if PyStr.truthy (PyStr.strip c3) then err2
                                           else "Failed to generate corrected query") ]}
                        ∪ st3), e')
              /\ trace e'
                 = trace e ++ head
                   ++ [EvNode handle_error st2; EvSchema info3;
                       EvLLM (ERROR_HANDLING_PROMPT
                                err2 (default info3 (st !! "schema")) q sql) c3;
                       EvNode final_error st3])).
Proof.
  intros Hq.
  destruct (query_node_result llm_invoke get_table_info
              st (mkEnv (world e) (trace e ++ [EvNode generate_sql st])) q Hq)
    as (info1 & c1 & w1 & Hgen).
  cbn [trace world] in Hgen.
  set (st1 := gen_update c1 ∪ st).
  assert (Hk1 : st1 !! "query" = Some q /\ st1 !! "schema" = st !! "schema").
  { subst st1. destruct (PyStr.truthy (PyStr.strip c1));
      rewrite !update_other by discriminate; auto. }
  destruct Hk1 as (Hq1 & Hsch1).
  destruct (execute_node_any st1
              (mkEnv w1 (((trace e ++ [EvNode generate_sql st])
                          ++ [EvSchema info1;
                              EvLLM (QUERY_PROMPT (default info1 (st !! "schema")) q) c1])
                         ++ [EvNode run_query st1])))
    as (upd2 & e2 & dbevs & Hex & Htr2 & Hquiet & Hout).
  cbn [trace world] in Htr2.
  set (st2 := upd2 ∪ st1).
  assert (Hupd2 : (exists r, upd2 = {[ "result" := r ]} /\ is_Some (st1 !! "sql"))
                  \/ (exists m, upd2 = {[ "error" := m ]})).
  { destruct (st1 !! "sql") as [sql1|].
    - destruct (exec_outcome_keys _ _ _ Hout) as [[_ [r ->]]|[_ (m & -> & _)]]; eauto.
    - destruct Hout as [_ ->]. eauto. }
  assert (Hk2 : st2 !! "query" = Some q /\ st2 !! "sql" = st1 !! "sql"
                /\ st2 !! "schema" = st !! "schema").
  { subst st2. destruct Hupd2 as [(r & -> & _)|(m & ->)];
      rewrite !update_other by discriminate; auto. }
  destruct Hk2 as (Hq2 & Hs2 & Hsch2).
  exists info1, c1, dbevs, upd2. cbv zeta. fold st1. fold st2.
  split; [exact Hquiet|]. split; [exact Hout|].
  assert (Hstart :
            run World agent (4 + fuel) generate_sql st e
            = match edge World agent run_query st2 with
              | END => (Ok st2, e2)
              | Goto n' => run World agent (S (S fuel)) n' st2 e2
              end).
  { change (4 + fuel) with (S (S (S (S fuel)))).
    rewrite run_step. cbn [action edge create_sql_agent]. rewrite Hgen.
    rewrite run_step. cbn [action create_sql_agent world trace].
    fold st1. rewrite Hex. fold st2. reflexivity. }
  rewrite Hstart. cbn [edge create_sql_agent]. unfold contains_key.
  assert (Htr2' : trace e2
                  = trace e ++ ([EvNode generate_sql st; EvSchema info1;
                                 EvLLM (QUERY_PROMPT (default info1 (st !! "schema")) q) c1;
                                 EvNode run_query st1] ++ dbevs)).
  { rewrite Htr2, <- !app_assoc. reflexivity. }
  destruct (st2 !! "error") as [err2|] eqn:He2; cbv beta iota.
  - destruct (st2 !! "sql") as [sql2|] eqn:Hsql2.
    + right. right.
      destruct (error_handling_node_result llm_invoke get_table_info st2
                  (mkEnv (world e2) (trace e2 ++ [EvNode handle_error st2]))
                  err2 q sql2 He2 Hq2 Hsql2)
        as (info3 & c3 & w3 & Hrep).
      cbn [trace world] in Hrep.
      set (st3 := repair_update c3 ∪ st2).
      assert (He3 : st3 !! "error"
                    = Some (if PyStr.truthy (PyStr.strip c3) then err2
                            else "Failed to generate corrected query")).
      { subst st3. destruct (PyStr.truthy (PyStr.strip c3));
          [rewrite update_other by discriminate; exact He2 | apply update_same]. }
      exists err2, sql2, info3, c3.
      exists (mkEnv w3
                (((trace e2 ++ [EvNode handle_error st2])
                  ++ [EvSchema info3;
                      EvLLM (ERROR_HANDLING_PROMPT
                               err2 (default info3 (st2 !! "schema")) q sql2) c3])
                 ++ [EvNode final_error st3])).
      cbv zeta. fold st3. split; [reflexivity|]. split; [reflexivity|]. split.
      * rewrite run_step. cbn [action edge create_sql_agent]. rewrite Hrep.
        fold st3. unfold contains_key at 1. rewrite He3.
        rewrite run_step. cbn [action edge create_sql_agent].
        unfold final_error_node, ret. cbn [world trace]. rewrite He3.
        reflexivity.
      * cbn [trace]. rewrite Htr2', Hsch2, <- !app_assoc. reflexivity.
    + right. left. split; [reflexivity|].
      destruct (error_handling_node_without_sql st2
                  (mkEnv (world e2) (trace e2 ++ [EvNode handle_error st2]))
                  err2 q He2 Hq2 Hsql2)
        as (info3 & w3 & Hrep).
      cbn [trace world] in Hrep.
      exists err2, info3. eexists. split; [reflexivity|]. split.
      * rewrite run_step. cbn [action create_sql_agent]. rewrite Hrep.
        reflexivity.
      * cbn [trace]. rewrite Htr2', <- !app_assoc. reflexivity.
  - left. split; [reflexivity|].
    assert (Hsql2 : exists sql2, st2 !! "sql" = Some sql2).
    { destruct Hupd2 as [(r & _ & [s Hs])|(m & Hm)].
      - exists s. now rewrite Hs2.
      - subst st2. rewrite Hm, update_same in He2. discriminate. }
    destruct Hsql2 as [sql2 Hsql2].
    destruct (explain_node_result st2
                (mkEnv (world e2) (trace e2 ++ [EvNode explain_query st2]))
                sql2 Hsql2)
      as (c4 & w4 & Hexp).
    cbn [trace world] in Hexp.
    exists sql2, c4. eexists. split; [exact Hsql2|]. split.
    + rewrite run_step. cbn [action edge create_sql_agent]. rewrite Hexp.
      reflexivity.
    + cbn [trace]. rewrite Htr2', <- !app_assoc. reflexivity.
Qed.

Local Abbreviation run_outcome' :=
  (run_outcome World llm_invoke db_chain_run get_table_info).
Local Abbreviation run_log' :=
  (run_log World llm_invoke db_chain_run get_table_info).

(** The runner reads the six keys of [SQLState] from the dict it is
    invoked on, and nothing else; invoking the agent on what it reads is
    invoking it on the dict. *)
Lemma input_channel (state : gmap string string) key :
  key ∈ channels World agent ->
  read_input World agent state !! key = state !! key.
Proof. intros Hin. rewrite read_input_lookup. now rewrite decide_True. Qed.

Lemma input_other (state : gmap string string) key :
  key ∉ channels World agent ->
  read_input World agent state !! key = None.
Proof. intros Hout. rewrite read_input_lookup. now rewrite decide_False. Qed.

Lemma input_query (state : gmap string string) :
  read_input World agent state !! "query" = state !! "query".
Proof. apply input_channel. cbn. repeat constructor. Qed.

Lemma input_sql (state : gmap string string) :
  read_input World agent state !! "sql" = state !! "sql".
Proof. apply input_channel. cbn. repeat constructor. Qed.

Lemma input_error (state : gmap string string) :
  read_input World agent state !! "error" = state !! "error".
Proof. apply input_channel. cbn. repeat constructor. Qed.

Lemma input_schema (state : gmap string string) :
  read_input World agent state !! "schema" = state !! "schema".
Proof. apply input_channel. cbn. repeat constructor. Qed.

Lemma run_outcome_input (state : gmap string string) (w : World) :
  run_outcome' state w = run_outcome' (read_input World agent state) w.
Proof. unfold run_outcome, invoke. now rewrite read_input_idem. Qed.

Lemma run_log_input (state : gmap string string) (w : World) :
  run_log' state w = run_log' (read_input World agent state) w.
Proof. unfold run_log, invoke. now rewrite read_input_idem. Qed.

(** To prove a fact about [agent.invoke(state)] that speaks of [state]
    through its channels only, it is enough to prove it of the dicts that
    have no other key. *)
Ltac on_input state w :=
  rewrite ?(run_outcome_input state w), ?(run_log_input state w),
    <- ?(input_query state), <- ?(input_sql state), <- ?(input_error state);
  generalize (read_input_idem agent state);
  generalize (read_input World agent state);
  clear state; intros state.

(** [agent.invoke(state)] from a state that binds [query] and has no key
    but the channels, with what the readers find in its log. *)
Lemma run_summary state (w : World) q :
  read_input World agent state = state ->
  state !! "query" = Some q ->
  exists info1 c1 dbevs upd2,
    let st1 := gen_update c1 ∪ state in
    let st2 := upd2 ∪ st1 in
    let p1 := QUERY_PROMPT (default info1 (state !! "schema")) q in
    quiet dbevs
    /\ match st1 !! "sql" with
       | Some sql => exec_outcome (statements sql) dbevs upd2
       | None => dbevs = [] /\ upd2 = {[ "error" := "'sql'" ]}
       end
    /\ ((st2 !! "error" = None
         /\ exists sql c4,
              st2 !! "sql" = Some sql
              /\ run_outcome' state w = Ok ({[ "explanation" := c4 ]} ∪ st2)
              /\ reads (run_log' state w)
                       [generate_sql; run_query; explain_query]
                       [state; st1; st2]
                       [p1; EXPLANATION_PROMPT sql] [c1; c4] [info1] [] dbevs)
        \/ (st2 !! "sql" = None
            /\ exists err2 info3,
                 st2 !! "error" = Some err2
                 /\ run_outcome' state w = Raise (KeyError "sql")
                 /\ reads (run_log' state w)
                          [generate_sql; run_query; handle_error]
                          [state; st1; st2]
                          [p1] [c1] [info1; info3] [st2] dbevs)
        \/ (exists err2 sql info3 c3,
              let st3 := repair_update c3 ∪ st2 in
              st2 !! "error" = Some err2
              /\ st2 !! "sql" = Some sql
              /\ run_outcome' state w
                 = Ok ({[ "error" := "Final error: "
                                     +:+ (if PyStr.truthy (PyStr.strip c3) then err2
                                          else "Failed to generate corrected query") ]}
                       ∪ st3)
              /\ reads (run_log' state w)
                       [generate_sql; run_query; handle_error; final_error]
                       [state; st1; st2; st3]
                       [p1; ERROR_HANDLING_PROMPT
                              err2 (default info3 (state !! "schema")) q sql]
                       [c1; c3] [info1; info3] [st2] dbevs)).
Proof.
  intros Hin Hq.
  destruct (run_paths state (start w) q 21 Hq)
    as (info1 & c1 & dbevs & upd2 & Hquiet & Hexec & Hpaths).
  exists info1, c1, dbevs, upd2. cbv zeta in *.
  split; [exact Hquiet|]. split; [exact Hexec|].
  unfold run_outcome, run_log, invoke. rewrite Hin.
  cbn [entry_point create_sql_agent].
  change recursion_limit with (4 + 21).
  destruct Hpaths
    as [(He2 & sql2 & c4 & e' & Hs2 & Hrun & Htr)
       |[(Hs2 & err2 & info3 & e' & He2 & Hrun & Htr)
        |(err2 & sql2 & info3 & c3 & e' & He2 & Hs2 & Hrun & Htr)]];
    rewrite Hrun; cbn [fst snd]; rewrite Htr; cbn [start trace];
    rewrite app_nil_l.
  - left. split; [exact He2|]. exists sql2, c4.
    split; [exact Hs2|]. split; [reflexivity|].
    now apply explain_log_readers.
  - right. left. split; [exact Hs2|]. exists err2, info3.
    split; [exact He2|]. split; [reflexivity|].
    now apply raise_log_readers.
  - right. right. exists err2, sql2, info3, c3.
    split; [exact He2|]. split; [exact Hs2|]. split; [reflexivity|].
    now apply final_log_readers.
Qed.

Lemma run_without_query st (e : Env World) fuel :
  st !! "query" = None ->
  exists info e',
    run World agent (S fuel) generate_sql st e = (Raise (KeyError "query"), e')
    /\ trace e' = trace e ++ [EvNode generate_sql st; EvSchema info].
Proof.
  intros Hq. rewrite run_step. cbn [action create_sql_agent].
  destruct (query_node_without_query
              st (mkEnv (world e) (trace e ++ [EvNode generate_sql st])) Hq)
    as (info & w1 & ->).
  exists info. eexists. split; [reflexivity|].
  cbn [trace]. now rewrite <- app_assoc.
Qed.

Lemma generated_sql c (st : gmap string string) :
  (gen_update c ∪ st) !! "sql"
  = if PyStr.truthy (PyStr.strip c) then Some (PyStr.strip c) else st !! "sql".
Proof.
  destruct (PyStr.truthy (PyStr.strip c));
    [apply update_same | apply update_other; discriminate].
Qed.

Lemma generated_error c (st : gmap string string) :
  (gen_update c ∪ st) !! "error"
  = if PyStr.truthy (PyStr.strip c) then st !! "error"
    else Some "No SQL query generated".
Proof.
  destruct (PyStr.truthy (PyStr.strip c));
    [apply update_other; discriminate | apply update_same].
Qed.

Lemma blank_is_falsy c : PyStr.strip c = "" <-> PyStr.truthy (PyStr.strip c) = false.
Proof. destruct (PyStr.strip c); cbn; split; congruence. Qed.

Lemma run_without_query_summary
  (state : gmap string string) (w : World) :
  read_input World agent state = state ->
  state !! "query" = None ->
  run_outcome' state w = Raise (KeyError "query")
  /\ activations (run_log' state w) = [generate_sql]
  /\ llm_replies (run_log' state w) = []
  /\ llm_prompts (run_log' state w) = []
  /\ executed (run_log' state w) = []
  /\ length (schema_fetches (run_log' state w)) = 1.
Proof.
  intros Hin Hq. unfold run_outcome, run_log, invoke. rewrite Hin.
  cbn [entry_point create_sql_agent]. change recursion_limit with (S 24).
  destruct (run_without_query state (start w) 24 Hq) as (info & e' & -> & Htr).
  cbn [fst snd]. rewrite Htr. split_and!; reflexivity.
Qed.

Lemma run_blank_without_sql_summary
  (state : gmap string string) (w : World) q c :
  read_input World agent state = state ->
  state !! "query" = Some q ->
  state !! "sql" = None ->
  generation_reply (run_log' state w) = Some c ->
  PyStr.strip c = "" ->
  run_outcome' state w = Raise (KeyError "sql")
  /\ activations (run_log' state w) = [generate_sql; run_query; handle_error]
  /\ executed (run_log' state w) = []
  /\ map (fun st : gmap string string => st !! "error")
         (handed handle_error (run_log' state w))
     = [Some "'sql'"]
  /\ length (llm_prompts (run_log' state w)) = 1.
Proof.
  intros Hin Hq Hs Hc Hblank.
  destruct (run_summary state w q Hin Hq)
    as (info1 & c1 & dbevs & upd2 & _ & Hexec & Hpaths).
  cbv zeta in *. rewrite generated_sql in Hexec.
  assert (Hc1 : c1 = c).
  { destruct Hpaths as [(_ & ? & ? & _ & _ & R)|[(_ & ? & ? & _ & _ & R)
                       |(? & ? & ? & ? & _ & _ & _ & R)]];
      destruct R as (_ & _ & _ & RR & _); unfold generation_reply in Hc;
      rewrite RR in Hc; now injection Hc. }
  subst c1. apply blank_is_falsy in Hblank. rewrite Hblank, Hs in *.
  destruct Hexec as [-> ->].
  assert (Hsql2 : ({[ "error" := "'sql'" ]}
                   ∪ ({[ "error" := "No SQL query generated" ]} ∪ state)) !! "sql"
                  = None).
  { now rewrite !update_other by discriminate. }
  destruct Hpaths as [(_ & sql & ? & Hsome & _)|[(_ & err2 & info3 & He2 & Hout & R)
                     |(? & sql & ? & ? & _ & Hsome & _)]];
    try (rewrite Hsql2 in Hsome; discriminate).
  destruct R as (RA & _ & RP & _ & _ & RH & RE & _).
  rewrite RA, RP, RH, RE. split_and!; try reflexivity; try assumption.
  cbn. now rewrite update_same.
Qed.

(** X7. Invoked on a state without [query], the agent raises
    [KeyError('query')] from its first node, after one schema read and
    before any call to the model or to the database. *)
Theorem missing_question_raises_before_any_call
  (state : gmap string string) (w : World) :
  state !! "query" = None ->
  run_outcome' state w = Raise (KeyError "query")
  /\ activations (run_log' state w) = [generate_sql]
  /\ llm_prompts (run_log' state w) = []
  /\ executed (run_log' state w) = []
  /\ length (schema_fetches (run_log' state w)) = 1.
Proof.
  on_input state w. intros Hin Hq.
  destruct (run_without_query_summary state w Hin Hq)
    as (H1 & H2 & _ & H3 & H4 & H5).
  auto.
Qed.

(** X8. Invoked on a state that binds [query] but not [sql] (such as the
    two-key state of [playground.py]'s [main]), the agent crashes when the
    generation reply is blank: the execute step turns the missing key into
    the error text ['sql'], which replaces the generation error, and the
    repair step then raises [KeyError('sql')] to the caller, having run no
    statement and sent no repair prompt. *)
Theorem blank_generation_without_sql_raises
  (state : gmap string string) (w : World) q c :
  state !! "query" = Some q ->
  state !! "sql" = None ->
  generation_reply (run_log' state w) = Some c ->
  PyStr.strip c = "" ->
  run_outcome' state w = Raise (KeyError "sql")
  /\ activations (run_log' state w) = [generate_sql; run_query; handle_error]
  /\ executed (run_log' state w) = []
  /\ map (fun st : gmap string string => st !! "error")
         (handed handle_error (run_log' state w))
     = [Some "'sql'"]
  /\ length (llm_prompts (run_log' state w)) = 1.
Proof.
  on_input state w. intros Hin. now apply run_blank_without_sql_summary.
Qed.

(** X6. The agent raises an exception to its caller in exactly two
    situations: the state it is invoked on has no [query]; or it has no
    [sql] and the generation reply is blank. In every other case
    [agent.invoke] returns a dict. *)
Theorem invoke_raises_exactly_when (state : gmap string string) (w : World) :
  (exists x, run_outcome' state w = Raise x)
  <-> (state !! "query" = None
       \/ (state !! "sql" = None
           /\ exists c, generation_reply (run_log' state w) = Some c
                        /\ PyStr.strip c = "")).
Proof.
  on_input state w. intros Hin.
  destruct (state !! "query") as [q|] eqn:Hq.
  2:{ split; [auto|]. intros _.
      exists (KeyError "query").
      now apply run_without_query_summary. }
  destruct (run_summary state w q Hin Hq)
    as (info1 & c1 & dbevs & upd2 & _ & Hexec & Hpaths).
  cbv zeta in *. rewrite generated_sql in Hexec.
  assert (Hgen : generation_reply (run_log' state w) = Some c1).
  { destruct Hpaths as [(_ & ? & ? & _ & _ & R)|[(_ & ? & ? & _ & _ & R)
                       |(? & ? & ? & ? & _ & _ & _ & R)]];
      destruct R as (_ & _ & _ & RR & _); unfold generation_reply;
      now rewrite RR. }
  assert (Hsql2 : (upd2 ∪ (gen_update c1 ∪ state)) !! "sql"
                  = if PyStr.truthy (PyStr.strip c1) then Some (PyStr.strip c1)
                    else state !! "sql").
  { rewrite <- generated_sql.
    destruct (PyStr.truthy (PyStr.strip c1)) eqn:Hnb;
      [|destruct (state !! "sql") as [s|] eqn:Hs].
    - destruct (exec_outcome_keys _ _ _ Hexec) as [[_ [r ->]]|[_ (m & -> & _)]];
        now rewrite update_other by discriminate.
    - destruct (exec_outcome_keys _ _ _ Hexec) as [[_ [r ->]]|[_ (m & -> & _)]];
        now rewrite update_other by discriminate.
    - destruct Hexec as [_ ->]. now rewrite update_other by discriminate. }
  split.
  - intros [x Hx]. right.
    destruct Hpaths as [(_ & ? & ? & _ & Hout & _)|[(Hnone & _)
                       |(? & ? & ? & ? & _ & _ & Hout & _)]];
      try (rewrite Hout in Hx; discriminate).
    rewrite Hsql2 in Hnone.
    destruct (PyStr.truthy (PyStr.strip c1)) eqn:Hnb; [discriminate|].
    split; [exact Hnone|]. exists c1. split; [exact Hgen|].
    now apply blank_is_falsy.
  - intros [Habs|(Hs & c & Hc & Hblank)]; [discriminate|].
    exists (KeyError "sql").
    now apply (run_blank_without_sql_summary state w q c).
Qed.

Lemma exec_outcome_all_rows stmts evs upd :
  exec_outcome stmts evs upd ->
  db_errors evs = [] ->
  exists outs,
    length outs = length stmts
    /\ upd = {[ "result" := PyStr.join PyStr.nl outs ]}
    /\ executed evs = stmts.
Proof.
  intros Hout Hnone.
  destruct (exec_outcome_executed _ _ _ Hout) as [[_ Hex]|(? & ? & ? & _ & _ & Hne)];
    [|contradiction].
  inversion Hout as [outs Hlen|before stmt rest outs msg Heq Hlen]; subst.
  - exists outs.
    split_and!; [assumption | reflexivity | now apply executed_all_rows].
  - exfalso. revert Hnone. unfold db_errors. rewrite omap_app. cbn.
    intros H. apply app_eq_nil in H as [_ H]. discriminate.
Qed.

(** After generation and execution the state has no [error] exactly when it
    had none before, the generation reply was not blank and no statement
    raised. *)
Lemma no_error_after_execution (state : gmap string string) c1 dbevs upd2 :
  match (gen_update c1 ∪ state) !! "sql" with
  | Some sql => exec_outcome (statements sql) dbevs upd2
  | None => dbevs = [] /\ upd2 = {[ "error" := "'sql'" ]}
  end ->
  (upd2 ∪ (gen_update c1 ∪ state)) !! "error" = None
  <-> (state !! "error" = None
       /\ PyStr.truthy (PyStr.strip c1) = true
       /\ db_errors dbevs = []).
Proof.
  intros Hexec. rewrite generated_sql in Hexec.
  assert (Hcases :
            (db_errors dbevs = [] /\ exists r, upd2 = {[ "result" := r ]})
            \/ ((db_errors dbevs <> [] \/ PyStr.truthy (PyStr.strip c1) = false)
                /\ exists m, upd2 = {[ "error" := m ]})).
  { destruct (PyStr.truthy (PyStr.strip c1)) eqn:Hnb;
      [|destruct (state !! "sql") as [s|]].
    - destruct (exec_outcome_keys _ _ _ Hexec) as [[? ?]|[? (m & ? & _)]]; eauto.
    - destruct (exec_outcome_keys _ _ _ Hexec) as [[? ?]|[? (m & ? & _)]]; eauto.
    - destruct Hexec as [_ ->]. eauto. }
  destruct Hcases as [[Hdb [r ->]]|[Hwhy [m ->]]].
  - rewrite update_other by discriminate. rewrite generated_error.
    destruct (PyStr.truthy (PyStr.strip c1)); split.
    + auto.
    + tauto.
    + discriminate.
    + intros (_ & ? & _). discriminate.
  - rewrite update_same. split; [discriminate|].
    intros (_ & Hnb & Hdb). destruct Hwhy; [contradiction | congruence].
Qed.

(** X9. On a state that binds [query] and has no [error] key, when the
    generation reply is not blank and no statement raises, the run is
    generate, execute, explain: the dict returned has no [error], its [sql]
    is the stripped reply, its [result] the outputs of all the statements
    of that reply joined by newlines, and its [explanation] the model's
    answer to the explanation prompt built from that [sql]. *)
Theorem success_without_error_key_is_explained
  (state : gmap string string) (w : World) q c :
  state !! "query" = Some q ->
  state !! "error" = None ->
  generation_reply (run_log' state w) = Some c ->
  PyStr.truthy (PyStr.strip c) = true ->
  db_errors (run_log' state w) = [] ->
  exists st' outs reply sch,
    run_outcome' state w = Ok st'
    /\ activations (run_log' state w) = [generate_sql; run_query; explain_query]
    /\ executed (run_log' state w) = statements (PyStr.strip c)
    /\ length outs = length (statements (PyStr.strip c))
    /\ llm_prompts (run_log' state w)
       = [QUERY_PROMPT sch q; EXPLANATION_PROMPT (PyStr.strip c)]
    /\ llm_replies (run_log' state w) = [c; reply]
    /\ st' !! "sql" = Some (PyStr.strip c)
    /\ st' !! "result" = Some (PyStr.join PyStr.nl outs)
    /\ st' !! "explanation" = Some reply
    /\ st' !! "error" = None.
Proof.
  on_input state w. intros Hin Hq Herr Hc Hnb Hdb.
  destruct (run_summary state w q Hin Hq)
    as (info1 & c1 & dbevs & upd2 & _ & Hexec & Hpaths).
  cbv zeta in *.
  pose proof (no_error_after_execution state c1 dbevs upd2 Hexec) as Hiff.
  rewrite generated_sql in Hexec.
  assert (Hfacts : c1 = c /\ db_errors dbevs = []).
  { destruct Hpaths as [(_ & ? & ? & _ & _ & R)|[(_ & ? & ? & _ & _ & R)
                       |(? & ? & ? & ? & _ & _ & _ & R)]];
      destruct R as (_ & _ & _ & RR & _ & _ & _ & RD);
      unfold generation_reply in Hc; rewrite RR in Hc; rewrite RD in Hdb;
      (split; [now injection Hc | exact Hdb]). }
  destruct Hfacts as [-> Hdb']. rewrite Hnb in *.
  destruct (exec_outcome_all_rows _ _ _ Hexec Hdb') as (outs & Hlen & -> & Hrun).
  assert (He2 : ({[ "result" := PyStr.join PyStr.nl outs ]}
                 ∪ ({[ "sql" := PyStr.strip c ]} ∪ state)) !! "error" = None).
  { apply Hiff. auto. }
  destruct Hpaths as [(_ & sql & c4 & Hsql & Hout & R)
                     |[(_ & err2 & ? & Hsome & _)
                      |(err2 & ? & ? & ? & Hsome & _)]];
    try (rewrite He2 in Hsome; discriminate).
  rewrite update_other, update_same in Hsql by discriminate.
  injection Hsql as <-.
  destruct R as (RA & _ & RP & RR & _ & _ & RE & _).
  eexists _, outs, c4, _. split; [exact Hout|]. rewrite RA, RP, RR, RE, Hrun.
  split_and!; try reflexivity; try assumption.
  - now rewrite !update_other, update_same by discriminate.
  - now rewrite update_other, update_same by discriminate.
  - apply update_same.
  - rewrite update_other by discriminate. exact He2.
Qed.

(** X10. From any state, the explain step is reached exactly when the state
    had no [error] key, the generation reply was not blank and no statement
    raised. In particular a caller that passes an [error] key, even an
    empty one, never gets an explanation. *)
Theorem explanation_is_reached_exactly_when
  (state : gmap string string) (w : World) :
  In explain_query (activations (run_log' state w))
  <-> (state !! "error" = None
       /\ (exists c, generation_reply (run_log' state w) = Some c
                     /\ PyStr.truthy (PyStr.strip c) = true)
       /\ db_errors (run_log' state w) = []).
Proof.
  on_input state w. intros Hin.
  destruct (state !! "query") as [q|] eqn:Hq.
  2:{ destruct (run_without_query_summary state w Hin Hq) as (_ & HA & HR & _).
      rewrite HA. unfold generation_reply. rewrite HR. split.
      - intros [H|[]]. discriminate.
      - intros (_ & (c & Hc & _) & _). discriminate. }
  destruct (run_summary state w q Hin Hq)
    as (info1 & c1 & dbevs & upd2 & _ & Hexec & Hpaths).
  cbv zeta in *.
  pose proof (no_error_after_execution state c1 dbevs upd2 Hexec) as Hiff.
  unfold generation_reply.
  destruct Hpaths as [(He2 & sql & c4 & _ & _ & R)
                     |[(_ & err2 & ? & He2 & _ & R)
                      |(err2 & ? & ? & ? & He2 & _ & _ & R)]];
    destruct R as (RA & _ & _ & RR & _ & _ & _ & RD); rewrite RA, RR, RD.
  - apply Hiff in He2 as (H1 & H2 & H3). split.
    + intros _. split; [exact H1|]. split; [eauto | exact H3].
    + intros _. cbn. auto.
  - split.
    + cbn. intros [H|[H|[H|[]]]]; discriminate.
    + intros (H1 & (c & Hc & H2) & H3). injection Hc as <-.
      assert (Hnone : (upd2 ∪ (gen_update c1 ∪ state)) !! "error" = None)
        by (apply Hiff; auto).
      rewrite Hnone in He2. discriminate.
  - split.
    + cbn. intros [H|[H|[H|[H|[]]]]]; discriminate.
    + intros (H1 & (c & Hc & H2) & H3). injection Hc as <-.
      assert (Hnone : (upd2 ∪ (gen_update c1 ∪ state)) !! "error" = None)
        by (apply Hiff; auto).
      rewrite Hnone in He2. discriminate.
Qed.

(** *** What a run leaves alone *)

Lemma keeps_refl (st : gmap string string) : keeps st st.
Proof. split; auto. Qed.

Lemma keeps_trans (st1 st2 st3 : gmap string string) :
  keeps st1 st2 -> keeps st2 st3 -> keeps st1 st3.
Proof.
  intros [H1 H2] [H3 H4]. split.
  - auto.
  - intros key ? ? ? ?. rewrite H4, H2 by assumption. reflexivity.
Qed.

Lemma keeps_update (st : gmap string string) key v :
  key = "sql" \/ key = "result" \/ key = "explanation" \/ key = "error" ->
  keeps st ({[ key := v ]} ∪ st).
Proof.
  intros Hkey. split.
  - intros k. apply update_keeps.
  - intros k ? ? ? ?. apply update_other.
    destruct Hkey as [-> | [-> | [-> | ->]]]; congruence.
Qed.

(** A node returns a dict with one key, one of [sql], [result],
    [explanation] and [error]. *)
Lemma node_writes n st (e : Env World) upd e' :
  action World agent n st e = (Ok upd, e') ->
  exists key v,
    upd = {[ key := v ]}
    /\ (key = "sql" \/ key = "result" \/ key = "explanation" \/ key = "error").
Proof.
  destruct n; cbn [action create_sql_agent].
  - unfold query_node, schema_of, bind, get_schema, getitem, llm, ret, raise.
    destruct (get_table_info (world e)) as [info w1]. cbn [world trace].
    destruct (st !! "query") as [q|]; simpl; [|discriminate].
    destruct (llm_invoke _ w1) as [c w2].
    destruct (PyStr.truthy (PyStr.strip c)); intros H; injection H as <- _;
      eauto 10.
  - intros H.
    destruct (execute_node_any st e) as (upd' & e'' & dbevs & Hex & _ & _ & Hout).
    rewrite Hex in H. injection H as <- _.
    destruct (st !! "sql") as [sql|].
    + destruct (exec_outcome_keys _ _ _ Hout) as [[_ [r ->]]|[_ (m & -> & _)]];
        eauto 10.
    + destruct Hout as [_ ->]. eauto 10.
  - unfold explain_node, bind, getitem, llm, ret, raise.
    destruct (st !! "sql") as [sql|]; simpl; [|discriminate].
    destruct (llm_invoke _ (world e)) as [c w1].
    intros H; injection H as <- _. eauto 10.
  - unfold error_handling_node, schema_of, bind, get_schema, getitem, llm, ret, raise.
    destruct (get_table_info (world e)) as [info w1]. cbn [world trace].
    destruct (st !! "error") as [err|]; simpl; [|discriminate].
    destruct (st !! "query") as [q|]; simpl; [|discriminate].
    destruct (st !! "sql") as [sql|]; simpl; [|discriminate].
    destruct (llm_invoke _ w1) as [c w2].
    destruct (PyStr.truthy (PyStr.strip c)); intros H; injection H as <- _;
      eauto 10.
  - unfold final_error_node, ret. intros H; injection H as <- _. eauto 10.
Qed.

Lemma no_activation_no_state evs : activations evs = [] -> node_states evs = [].
Proof.
  induction evs as [|[n st|p c|s o|i] evs IH]; cbn; intros H;
    try discriminate; auto.
Qed.

Lemma node_states_app l1 l2 :
  node_states (l1 ++ l2) = node_states l1 ++ node_states l2.
Proof. apply omap_app. Qed.

Lemma run_keeps fuel : forall n st (e : Env World),
  exists r e' evs,
    run World agent fuel n st e = (r, e')
    /\ trace e' = trace e ++ evs
    /\ Forall (keeps st) (node_states evs)
    /\ forall st', r = Ok st' -> keeps st st'.
Proof.
  induction fuel as [|fuel IH]; intros n st e.
  - exists (Raise GraphRecursionError), e, []. rewrite app_nil_r.
    split_and!; [reflexivity | reflexivity | constructor | discriminate].
  - rewrite run_step.
    destruct (node_quiet llm_invoke db_chain_run get_table_info n st
                (mkEnv (world e) (trace e ++ [EvNode n st])))
      as (r1 & e1 & evs1 & H1 & T1 & A1 & _).
    cbn [trace] in T1. rewrite H1.
    apply no_activation_no_state in A1.
    destruct r1 as [upd|x].
    2:{ exists (Raise x), e1, (EvNode n st :: evs1).
        split_and!; [reflexivity | now rewrite T1, <- app_assoc | | discriminate].
        change (EvNode n st :: evs1) with ([EvNode n st] ++ evs1).
        rewrite node_states_app, A1. cbn. repeat constructor; apply keeps_refl. }
    destruct (node_writes _ _ _ _ _ H1) as (key & v & -> & Hkey).
    pose proof (keeps_update st key v Hkey) as Hk.
    destruct (edge World agent n ({[ key := v ]} ∪ st)) as [n'|].
    + destruct (IH n' ({[ key := v ]} ∪ st) e1)
        as (r & e' & evs & Hrun & Htr & Hall & Hret).
      exists r, e', ((EvNode n st :: evs1) ++ evs).
      split_and!.
      * exact Hrun.
      * rewrite Htr, T1, <- !app_assoc. reflexivity.
      * change (EvNode n st :: evs1) with ([EvNode n st] ++ evs1).
        rewrite !node_states_app, A1. cbn.
        constructor; [apply keeps_refl|].
        eapply Forall_impl; [exact Hall|]. intros st'. now apply keeps_trans.
      * intros st' Hst'. eapply keeps_trans; [exact Hk | now apply Hret].
    + exists (Ok ({[ key := v ]} ∪ st)), e1, (EvNode n st :: evs1).
      split_and!.
      * reflexivity.
      * now rewrite T1, <- app_assoc.
      * change (EvNode n st :: evs1) with ([EvNode n st] ++ evs1).
        rewrite node_states_app, A1. cbn. repeat constructor; apply keeps_refl.
      * intros st' H. now injection H as <-.
Qed.

(** A dict that keeps what the runner read from [state] has no key outside
    the six of [SQLState], and has the [query] and the [schema] of
    [state]. *)
Lemma keeps_input (state st : gmap string string) :
  keeps (read_input World agent state) st ->
  (forall key, key ∉ channels World agent -> st !! key = None)
  /\ st !! "query" = state !! "query"
  /\ st !! "schema" = state !! "schema".
Proof.
  intros [_ Hsame]. split_and!.
  - intros key Hout. rewrite Hsame.
    + now apply input_other.
    + intros ->. apply Hout. cbn. repeat constructor.
    + intros ->. apply Hout. cbn. repeat constructor.
    + intros ->. apply Hout. cbn. repeat constructor.
    + intros ->. apply Hout. cbn. repeat constructor.
  - rewrite Hsame by discriminate. apply input_query.
  - rewrite Hsame by discriminate. apply input_schema.
Qed.

(** X5. Whatever dict the agent is invoked on, the runner reads the six
    keys of [SQLState] from it and drops every other entry. Every state it
    hands to a node, and the dict it returns, binds each of the six keys
    the caller's dict binds, binds no key outside the six, and agrees with
    the caller's dict on [query], [schema] and every key other than [sql],
    [result], [explanation] and [error], the four keys the nodes write. *)
Theorem invoke_keeps_the_declared_keys_only
  (state : gmap string string) (w : World) :
  Forall (fun st : gmap string string =>
            keeps (read_input World agent state) st
            /\ (forall key, key ∉ channels World agent -> st !! key = None)
            /\ st !! "query" = state !! "query"
            /\ st !! "schema" = state !! "schema")
         (node_states (run_log' state w)
          ++ match run_outcome' state w with
             | Ok st' => [st']
             | Raise _ => []
             end).
Proof.
  unfold run_outcome, run_log, invoke.
  destruct (run_keeps recursion_limit generate_sql
                      (read_input World agent state) (start w))
    as (r & e' & evs & Hrun & Htr & Hall & Hret).
  cbn [entry_point create_sql_agent]. rewrite Hrun. cbn [fst snd].
  rewrite Htr. cbn [start trace app].
  apply Forall_app. split.
  - eapply Forall_impl; [exact Hall|]. intros st Hk.
    split; [exact Hk | now apply keeps_input].
  - destruct r as [st'|x]; constructor; [|constructor].
    split; [now apply Hret | apply keeps_input; now apply Hret].
Qed.

End Paths.

(** ** What [main] prints after a turn *)

Lemma shown_is_no_error_line (st : gmap string string) key label x :
  label = PyStr.nl +:+ "Generated SQL:"
  \/ label = PyStr.nl +:+ "Explanation:"
  \/ label = PyStr.nl +:+ "Result:" ->
  ~ In (PyStr.nl +:+ "Error: " +:+ x) (shown st key label).
Proof.
  unfold shown. intros Hlabel Hin.
  destruct (st !! key) as [v|]; [|contradiction].
  destruct (PyStr.truthy v); [|contradiction].
  destruct Hin as [Heq|[]].
  destruct Hlabel as [-> | [-> | ->]]; cbn in Heq; discriminate.
Qed.

(** The error line is printed unless the error is exactly
    ["Final error: "]. *)
Lemma main_display_error_iff (st : gmap string string) e3 :
  st !! "error" = Some ("Final error: " +:+ e3) ->
  (exists x, In (PyStr.nl +:+ "Error: " +:+ x) (main_display st)) <-> e3 <> "".
Proof.
  intros Herr. split.
  - intros [x Hin]. unfold main_display in Hin. rewrite Herr in Hin.
    apply in_app_or in Hin as [Hin|Hin];
      [exfalso; revert Hin; apply shown_is_no_error_line; auto|].
    apply in_app_or in Hin as [Hin|Hin];
      [exfalso; revert Hin; apply shown_is_no_error_line; auto|].
    apply in_app_or in Hin as [Hin|Hin];
      [exfalso; revert Hin; apply shown_is_no_error_line; auto|].
    intros ->. cbn in Hin. contradiction.
  - intros Hne. exists ("Final error: " +:+ e3).
    apply main_display_error; assumption.
Qed.

Section Display.

Context {World : Type}.
Variable llm_invoke : string -> World -> string * World.
Variable db_chain_run : string -> World -> DbOutcome * World.
Variable get_table_info : World -> string * World.

Local Abbreviation turn_outcome' :=
  (turn_outcome World llm_invoke db_chain_run get_table_info).
Local Abbreviation turn_log' :=
  (turn_log World llm_invoke db_chain_run get_table_info).

(** The error text a turn ends with is non-empty exactly when one of the
    three error kinds occurred. *)
Lemma turn_reports q (w : World) :
  exists st' e3,
    turn_outcome' q w = Ok st'
    /\ st' !! "error" = Some ("Final error: " +:+ e3)
    /\ (e3 <> "" <-> exists kind, occurs kind (turn_log' q w)).
Proof.
  destruct (turn_summary llm_invoke db_chain_run get_table_info q w)
    as (sch & info1 & c1 & dbevs & upd2 & info3 & c3 & e2
        & Hout & _ & _ & _ & _ & Hrep & _ & _ & Hdb & Hexec & Hs1 & He2
        & Hblank & Hfail).
  cbv zeta in *.
  eexists _, _. split; [exact Hout|]. split; [apply update_same|].
  assert (Hclean : PyStr.truthy (PyStr.strip c1) = true ->
                   db_errors dbevs = [] -> e2 = "").
  { intros Hnb Hnone. rewrite Hnb in *.
    destruct (exec_outcome_all_rows _ _ _ Hexec Hnone) as (outs & _ & -> & _).
    rewrite !update_other in He2 by discriminate.
    destruct (SQLState_keys q "" "" "" sch "") as (_ & _ & _ & _ & _ & He0).
    cbv zeta in He0. congruence. }
  split.
  - intros Hne.
    destruct (PyStr.truthy (PyStr.strip c3)) eqn:Hnb3.
    + destruct (PyStr.truthy (PyStr.strip c1)) eqn:Hnb1.
      * exists ExecutionFailure. cbn. rewrite Hdb.
        intros Hnone. apply Hne. now apply Hclean.
      * exists EmptyGeneration. cbn. exists c1. unfold generation_reply.
        rewrite Hrep. split; [reflexivity|].
        destruct (PyStr.strip c1); [reflexivity | discriminate].
    + exists RepairExhausted. cbn. exists c3. unfold repair_reply.
      rewrite Hrep. split; [reflexivity|].
      destruct (PyStr.strip c3); [reflexivity | discriminate].
  - intros [kind Hkind]. destruct kind; cbn [occurs] in Hkind.
    + destruct Hkind as (c & Hc & Hc0). unfold generation_reply in Hc.
      rewrite Hrep in Hc. injection Hc as <-.
      destruct Hblank as [_ ->]; [now rewrite Hc0|].
      destruct (PyStr.truthy (PyStr.strip c3)); discriminate.
    + rewrite Hdb in Hkind. specialize (Hfail Hkind).
      destruct (PyStr.truthy (PyStr.strip c3)); [assumption | discriminate].
    + destruct Hkind as (c & Hc & Hc0). unfold repair_reply in Hc.
      rewrite Hrep in Hc. injection Hc as <-. rewrite Hc0. discriminate.
Qed.

(** X12. After every turn [main] prints an error line exactly when one of
    the three error kinds occurred in the turn: a blank generation, a
    statement the database rejected, or a blank repair. The error
    ["Final error: "] that ends a turn without failure is never shown. *)
Theorem error_line_is_printed_exactly_on_failure q (w : World) :
  exists st',
    turn_outcome' q w = Ok st'
    /\ ((exists x, In (PyStr.nl +:+ "Error: " +:+ x) (main_display st'))
        <-> exists kind, occurs kind (turn_log' q w)).
Proof.
  destruct (turn_reports q w) as (st' & e3 & Hout & Herr & Hiff).
  exists st'. split; [exact Hout|].
  rewrite (main_display_error_iff st' e3 Herr). exact Hiff.
Qed.

(** X11. A turn of [main] in which nothing fails (the generation reply is
    not blank, no statement raises, the repair reply is not blank). The
    statements run are those of the generation reply, and the result
    printed is theirs; yet the repair prompt is sent, with an empty error
    text, and the SQL that [main] prints and returns is the repair reply,
    which was never run. No explanation and no error line is printed. *)
Theorem a_turn_without_failure_shows_the_repair_reply q (w : World) c1 c3 :
  generation_reply (turn_log' q w) = Some c1 ->
  PyStr.truthy (PyStr.strip c1) = true ->
  db_errors (turn_log' q w) = [] ->
  repair_reply (turn_log' q w) = Some c3 ->
  PyStr.truthy (PyStr.strip c3) = true ->
  exists st' outs sch,
    turn_outcome' q w = Ok st'
    /\ executed (turn_log' q w) = statements (PyStr.strip c1)
    /\ length outs = length (statements (PyStr.strip c1))
    /\ llm_prompts (turn_log' q w)
       = [QUERY_PROMPT sch q;
          ERROR_HANDLING_PROMPT "" sch q (PyStr.strip c1)]
    /\ st' !! "sql" = Some (PyStr.strip c3)
    /\ st' !! "result" = Some (PyStr.join PyStr.nl outs)
    /\ main_display st'
       = [PyStr.nl +:+ "Generated SQL: " +:+ PyStr.strip c3]
         ++ (if PyStr.truthy (PyStr.join PyStr.nl outs)
             then [PyStr.nl +:+ "Result: " +:+ PyStr.join PyStr.nl outs]
             else []).
Proof.
  intros Hc1 Hnb1 Hnone Hc3 Hnb3.
  destruct (turn_summary llm_invoke db_chain_run get_table_info q w)
    as (sch & info1 & d1 & dbevs & upd2 & info3 & d3 & e2
        & Hout & _ & _ & _ & Hpr & Hrep & _ & Hexd & Hdb & Hexec & Hs1 & He2 & _).
  cbv zeta in *.
  unfold generation_reply, repair_reply in *. rewrite Hrep in Hc1, Hc3.
  injection Hc1 as ->. injection Hc3 as ->.
  rewrite Hnb1, Hnb3 in *. rewrite Hdb in Hnone.
  destruct (exec_outcome_all_rows _ _ _ Hexec Hnone) as (outs & Hlen & -> & Hrun).
  destruct (SQLState_keys q "" "" "" sch "") as (_ & _ & _ & Hx0 & _ & He0).
  cbv zeta in Hx0, He0.
  rewrite !update_other in He2 by discriminate.
  assert (He : e2 = "") by congruence. subst e2.
  set (st' := {[ "error" := "Final error: " +:+ "" ]}
              ∪ ({[ "sql" := PyStr.strip c3 ]}
                 ∪ ({[ "result" := PyStr.join PyStr.nl outs ]}
                    ∪ ({[ "sql" := PyStr.strip c1 ]}
                       ∪ SQLState q "" "" "" sch "")))) in *.
  assert (Hsql : st' !! "sql" = Some (PyStr.strip c3)).
  { subst st'. now rewrite update_other, update_same by discriminate. }
  assert (Hres : st' !! "result" = Some (PyStr.join PyStr.nl outs)).
  { subst st'. now rewrite !update_other, update_same by discriminate. }
  assert (Hexp : st' !! "explanation" = Some "").
  { subst st'. now rewrite !update_other by discriminate. }
  assert (Herr : st' !! "error" = Some "Final error: ").
  { subst st'. now rewrite update_same. }
  exists st', outs, sch. rewrite Hexd, Hrun, Hpr.
  split_and!; try reflexivity; try assumption.
  unfold main_display, shown. rewrite Hsql, Hres, Hexp, Herr, Hnb3.
  cbn [PyStr.truthy String.eqb Ascii.eqb Bool.eqb andb negb app].
  destruct (PyStr.truthy (PyStr.join PyStr.nl outs)); reflexivity.
Qed.

End Display.

(** ** The command loop *)

Lemma handed_app n l1 l2 : handed n (l1 ++ l2) = handed n l1 ++ handed n l2.
Proof. apply omap_app. Qed.

Lemma llm_prompts_app l1 l2 :
  llm_prompts (l1 ++ l2) = llm_prompts l1 ++ llm_prompts l2.
Proof. apply omap_app. Qed.

Lemma llm_replies_app l1 l2 :
  llm_replies (l1 ++ l2) = llm_replies l1 ++ llm_replies l2.
Proof. apply omap_app. Qed.

Section SessionFacts.

Context {World : Type}.
Variable llm_invoke : string -> World -> string * World.
Variable db_chain_run : string -> World -> DbOutcome * World.
Variable get_table_info : World -> string * World.
Variable recursion_message : string.

Local Abbreviation main_turn' :=
  (main_turn World llm_invoke db_chain_run get_table_info).
Local Abbreviation main_loop' :=
  (main_loop World llm_invoke db_chain_run get_table_info recursion_message).
Local Abbreviation main' :=
  (main World llm_invoke db_chain_run get_table_info recursion_message).

(** A line that is a question, not a command. *)
Local Abbreviation asks line :=
  (quit_typed (PyStr.strip line) = false
   /\ exit_typed (PyStr.strip line) = false).

(** A turn of [main], started anywhere in a session. *)
Lemma main_turn_any q (e : Env World) :
  exists st' e' evs st0,
    main_turn' q e = (Ok st', e')
    /\ trace e' = trace e ++ evs
    /\ activations evs = [generate_sql; run_query; handle_error; final_error]
    /\ handed generate_sql evs = [st0]
    /\ st0 !! "query" = Some q
    /\ length (llm_prompts evs) = 2.
Proof.
  unfold main_turn, main_state, bind, get_schema, ret, invoke.
  destruct (get_table_info (world e)) as [sch w0].
  rewrite read_input_SQLState. cbn [entry_point create_sql_agent].
  destruct (SQLState_keys q "" "" "" sch "") as (Hq & Hs & _ & _ & _ & He).
  cbv zeta in Hq, Hs, He.
  change recursion_limit with (4 + 21).
  destruct (agent_log llm_invoke db_chain_run get_table_info
              (SQLState q "" "" "" sch "") (mkEnv w0 (trace e ++ [EvSchema sch]))
              q "" "" 21 Hq Hs He)
    as (info1 & c1 & dbevs & upd2 & info3 & c3 & e' & s1 & e2
        & Hrun & Htr & _ & _ & Hout).
  cbv zeta in *. rewrite Hrun. cbn [trace] in Htr.
  apply exec_outcome_is_quiet in Hout.
  assert (Hshape : forall (t A B : list Event) s,
             (t ++ [s]) ++ A ++ dbevs ++ B = t ++ ((s :: A) ++ dbevs) ++ B).
  { intros. rewrite <- !app_assoc. reflexivity. }
  rewrite Hshape in Htr.
  eexists _, e', _, (SQLState q "" "" "" sch "").
  split; [reflexivity|]. split; [exact Htr|].
  { match goal with
    | |- activations ((?l1 ++ dbevs) ++ ?l2) = _ /\ _ =>
        rewrite (proj1 (quiet_skip dbevs l1 l2 Hout));
        rewrite (proj1 (proj2 (proj2 (quiet_skip dbevs l1 l2 Hout))));
        rewrite (proj1 (proj2 (proj2 (proj2 (proj2 (proj2
                   (quiet_skip dbevs l1 l2 Hout)))))))
    end.
    cbn. split_and!; first [reflexivity | exact Hq]. }
Qed.

(** The lines that are questions are asked one after the other, each in a
    turn of its own, and then the loop goes on with what follows them. *)
Lemma main_loop_questions before :
  Forall (fun line => asks line) before ->
  forall printed (e : Env World),
  exists printed' e' evs,
    (forall rest,
        main_loop' (before ++ rest) printed e = main_loop' rest printed' e')
    /\ trace e' = trace e ++ evs
    /\ map (fun st : gmap string string => st !! "query")
           (handed generate_sql evs)
       = map (fun line => Some (PyStr.strip line)) before
    /\ length (activations evs) = 4 * length before
    /\ length (llm_prompts evs) = 2 * length before.
Proof.
  induction 1 as [|line before [Hquit Hexit] _ IH]; intros printed e.
  - exists printed, e, []. rewrite app_nil_r. split_and!; reflexivity.
  - destruct (main_turn_any (PyStr.strip line) e)
      as (st' & e1 & evs1 & st0 & Hturn & Htr1 & Hact1 & Hhand1 & Hq0 & Hllm1).
    destruct (IH (printed ++ [question_prompt] ++ main_display st') e1)
      as (printed' & e' & evs & Hloop & Htr & Hqs & Hact & Hllm).
    exists printed', e', (evs1 ++ evs). split_and!.
    + intros rest. cbn [app main_loop]. rewrite Hquit, Hexit, Hturn. apply Hloop.
    + rewrite Htr, Htr1, <- app_assoc. reflexivity.
    + rewrite handed_app, map_app, Hhand1, Hqs. cbn. now rewrite Hq0.
    + rewrite activations_app, length_app, Hact1, Hact. cbn. lia.
    + rewrite llm_prompts_app, length_app, Hllm1, Hllm. cbn. lia.
Qed.

(** X13. When no line typed is a command, [main] asks every line, stripped,
    as a question, in order and including blank lines, each in one turn of
    four node activations and two model calls, and it ends only when the
    input does, on the [EOFError] of [input]: the workflow itself never
    makes it take its [except] branch. *)
Theorem every_line_is_asked_until_input_ends (lines : list string) (w : World) :
  Forall (fun line => asks line) lines ->
  snd (fst (main' lines (start w))) = EndOfInput
  /\ map (fun st : gmap string string => st !! "query")
         (handed generate_sql (trace (snd (main' lines (start w)))))
     = map (fun line => Some (PyStr.strip line)) lines
  /\ length (activations (trace (snd (main' lines (start w)))))
     = 4 * length lines
  /\ length (llm_prompts (trace (snd (main' lines (start w)))))
     = 2 * length lines.
Proof.
  intros Hall. unfold main.
  destruct (main_loop_questions lines Hall
              ["Welcome to the Text-to-SQL Agent!"; "Type 'exit' to quit."]
              (start w))
    as (printed' & e' & evs & Hloop & Htr & Hqs & Hact & Hllm).
  specialize (Hloop []). rewrite app_nil_r in Hloop. rewrite Hloop.
  cbn [main_loop fst snd]. rewrite Htr. cbn [start trace app]. auto.
Qed.

(** X14. The first line that is a command ends [main]: [quit] (in lower
    case only) by [sys.exit()], [exit] in any letter case by leaving the
    loop. The lines before it are asked as questions; nothing typed after
    it changes anything: what is printed, the world and the log are the
    same as if the command were the last line. *)
Theorem first_command_ends_the_session
  (before : list string) command (rest : list string) (w : World) :
  Forall (fun line => asks line) before ->
  quit_typed (PyStr.strip command) || exit_typed (PyStr.strip command) = true ->
  main' (before ++ command :: rest) (start w)
  = main' (before ++ [command]) (start w)
  /\ snd (fst (main' (before ++ command :: rest) (start w)))
     = (if quit_typed (PyStr.strip command) then Quit else Exited)
  /\ map (fun st : gmap string string => st !! "query")
         (handed generate_sql
            (trace (snd (main' (before ++ command :: rest) (start w)))))
     = map (fun line => Some (PyStr.strip line)) before.
Proof.
  intros Hall Hcmd. unfold main.
  destruct (main_loop_questions before Hall
              ["Welcome to the Text-to-SQL Agent!"; "Type 'exit' to quit."]
              (start w))
    as (printed' & e' & evs & Hloop & Htr & Hqs & _).
  rewrite !Hloop. cbn [main_loop].
  destruct (quit_typed (PyStr.strip command)).
  - cbn [fst snd]. rewrite Htr. cbn [start trace app]. auto.
  - cbn [orb] in Hcmd. rewrite Hcmd.
    cbn [fst snd]. rewrite Htr. cbn [start trace app]. auto.
Qed.

End SessionFacts.

(** ** The steps of [playground.py] beside those of [sql_agent.py] *)

Section PlaygroundFacts.

Context {World : Type}.
Variable llm_invoke : string -> World -> string * World.
Variable db_chain_run : string -> World -> DbOutcome * World.
Variable get_table_info : World -> string * World.

(** X15. On a [sql] text with a single statement, the execute step of
    [sql_agent.py] does what the earlier one of [playground.py] does on the
    statement alone: one database call, with the same answer, world and
    log. They return the same [result]; on failure the later version wraps
    the database's message with the statement. What differs is the text
    sent: the earlier version sends [sql] as it is, the later one the
    stripped statement without its semicolons. *)
Theorem single_statement_runs_as_in_playground
  (state pstate : gmap string string) sql stmt (e : Env World) :
  state !! "sql" = Some sql ->
  statements sql = [stmt] ->
  pstate !! "sql" = Some stmt ->
  exists out w1,
    db_chain_run stmt (world e) = (out, w1)
    /\ Playground.execute_node World db_chain_run pstate e
       = (Ok match out with
             | Rows result => {[ "result" := result ]}
             | DbRaise msg => {[ "error" := msg ]}
             end,
          mkEnv w1 (trace e ++ [EvDb stmt out]))
    /\ execute_node World db_chain_run state e
       = (Ok match out with
             | Rows result => {[ "result" := result ]}
             | DbRaise msg =>
                 {[ "error" := "Error executing statement: " +:+ stmt
                               +:+ PyStr.nl +:+ "Error: " +:+ msg ]}
             end,
          mkEnv w1 (trace e ++ [EvDb stmt out]))
    /\ executed (trace (snd (Playground.execute_node World db_chain_run
                                                     state (start (world e)))))
       = [sql].
Proof.
  intros Hs Hst Hp.
  unfold Playground.execute_node, execute_node.
  rewrite Hs, Hst, Hp. cbn [run_statements]. unfold bind, db_run, ret.
  destruct (db_chain_run stmt (world e)) as [out w1] eqn:Hdb.
  exists out, w1. split; [reflexivity|].
  split; [now destruct out|]. split; [now destruct out|].
  cbn [start world trace].
  destruct (db_chain_run sql (world e)) as [[r|m] w2]; reflexivity.
Qed.

(** X16. The generation step of [sql_agent.py] is the one of [playground.py]
    with a check on the reply added. On every state and world both read the
    schema and call the model in the same way, leave the same world and log
    behind, and raise the same exception if they raise. Where the earlier
    version stores the reply [c] as [sql], the later one stores the stripped
    reply, or, when that is empty, stores no [sql] and the [error]
    'No SQL query generated'. *)
Theorem query_node_checks_what_playground_stores
  (state : gmap string string) (e : Env World) :
  match Playground.query_node World llm_invoke get_table_info state e with
  | (Raise x, e') =>
      query_node World llm_invoke get_table_info state e = (Raise x, e')
  | (Ok upd, e') =>
      exists c,
        upd = {[ "sql" := c ]}
        /\ llm_replies (trace e') = llm_replies (trace e) ++ [c]
        /\ query_node World llm_invoke get_table_info state e
           = (Ok (if PyStr.truthy (PyStr.strip c)
                  then {[ "sql" := PyStr.strip c ]}
                  else {[ "error" := "No SQL query generated" ]}),
              e')
  end.
Proof.
  unfold Playground.query_node, query_node, schema_of, bind, get_schema,
    getitem, llm, ret.
  destruct (get_table_info (world e)) as [info w1]. cbn.
  destruct (state !! "query") as [q|]; cbn; [|reflexivity].
  destruct (llm_invoke _ w1) as [c w2]. cbn.
  exists c. split; [reflexivity|]. split.
  - now rewrite <- app_assoc, llm_replies_app.
  - now destruct (PyStr.truthy (PyStr.strip c)).
Qed.

(** X17. The repair step of [sql_agent.py] is the one of [playground.py]
    with the same check added. Both look up [error], [query] and [sql] in
    that order, so that they raise the same [KeyError] on the same states,
    both read the schema and call the model in the same way, and both leave
    the same world and log behind. Where the earlier version stores the
    reply [c] as [sql], the later one stores the stripped reply, or, when
    that is empty, the [error] 'Failed to generate corrected query'. *)
Theorem error_handling_node_checks_what_playground_stores
  (state : gmap string string) (e : Env World) :
  match Playground.error_handling_node World llm_invoke get_table_info state e
  with
  | (Raise x, e') =>
      error_handling_node World llm_invoke get_table_info state e
      = (Raise x, e')
      /\ llm_prompts (trace e') = llm_prompts (trace e)
      /\ x = KeyError (if decide (is_Some (state !! "error"))
                       then if decide (is_Some (state !! "query"))
                            then "sql" else "query"
                       else "error")
  | (Ok upd, e') =>
      exists c,
        upd = {[ "sql" := c ]}
        /\ llm_replies (trace e') = llm_replies (trace e) ++ [c]
        /\ error_handling_node World llm_invoke get_table_info state e
           = (Ok (if PyStr.truthy (PyStr.strip c)
                  then {[ "sql" := PyStr.strip c ]}
                  else {[ "error" := "Failed to generate corrected query" ]}),
              e')
  end.
Proof.
  unfold Playground.error_handling_node, error_handling_node, schema_of, bind,
    get_schema, getitem, llm, ret.
  destruct (get_table_info (world e)) as [info w1]. cbn.
  destruct (state !! "error") as [err|]; cbn.
  2:{ split_and!; [reflexivity| |reflexivity].
      rewrite llm_prompts_app. cbn. now rewrite app_nil_r. }
  destruct (state !! "query") as [q|]; cbn.
  2:{ split_and!; [reflexivity| |reflexivity].
      rewrite llm_prompts_app. cbn. now rewrite app_nil_r. }
  destruct (state !! "sql") as [sql|]; cbn.
  2:{ split_and!; [reflexivity| |reflexivity].
      rewrite llm_prompts_app. cbn. now rewrite app_nil_r. }
  destruct (llm_invoke _ w1) as [c w2]. cbn.
  exists c. split; [reflexivity|]. split.
  - now rewrite <- app_assoc, llm_replies_app.
  - now destruct (PyStr.truthy (PyStr.strip c)).
Qed.

End PlaygroundFacts.

(** ** The further theorems, at concrete inputs *)

(** A text with blank fragments and padding, and its statements rejoined. *)
Lemma rejoined_statements_execute_alike_witness :
  ({[ "sql" := " SELECT 1 ;; SELECT 2 " ]} : gmap string string) !! "sql"
  = Some " SELECT 1 ;; SELECT 2 "
  /\ ({[ "sql" := "SELECT 1;SELECT 2" ]} : gmap string string) !! "sql"
     = Some (PyStr.join ";" (statements " SELECT 1 ;; SELECT 2 "))
  /\ execute_node Stub.World Stub.db_chain_run
                  {[ "sql" := "SELECT 1;SELECT 2" ]} (start [])
     = execute_node Stub.World Stub.db_chain_run
                    {[ "sql" := " SELECT 1 ;; SELECT 2 " ]} (start []).
Proof.
  assert (H1 : ({[ "sql" := " SELECT 1 ;; SELECT 2 " ]} : gmap string string)
               !! "sql" = Some " SELECT 1 ;; SELECT 2 ")
    by (vm_compute; reflexivity).
  assert (H2 : ({[ "sql" := "SELECT 1;SELECT 2" ]} : gmap string string) !! "sql"
               = Some (PyStr.join ";" (statements " SELECT 1 ;; SELECT 2 ")))
    by (vm_compute; reflexivity).
  split; [exact H1|]. split; [exact H2|].
  apply (rejoined_statements_execute_alike
           Stub.db_chain_run
           {[ "sql" := " SELECT 1 ;; SELECT 2 " ]}
           {[ "sql" := "SELECT 1;SELECT 2" ]}
           " SELECT 1 ;; SELECT 2 " (start ([] : Stub.World)) H1 H2).
Defined.

(** A first part whose second statement is rejected, then a second part. *)
Lemma execute_node_on_two_parts_witness :
  ({[ "sql" := "SELECT 1; DROP TABLE t" ]} : gmap string string) !! "sql"
  = Some "SELECT 1; DROP TABLE t"
  /\ ({[ "sql" := "SELECT 1; DROP TABLE t;SELECT 2" ]} : gmap string string)
     !! "sql"
     = Some ("SELECT 1; DROP TABLE t" +:+ ";" +:+ "SELECT 2")
  /\ execute_node Stub.World Stub.db_chain_run
                  {[ "sql" := "SELECT 1; DROP TABLE t" ]} (start [])
     = (Ok {[ "error" := "Error executing statement: DROP TABLE t"
                         +:+ PyStr.nl +:+ "Error: syntax error" ]},
        mkEnv [] [EvDb "SELECT 1" (Rows "rows(SELECT 1)");
                  EvDb "DROP TABLE t" (DbRaise "syntax error")])
  /\ execute_node Stub.World Stub.db_chain_run
                  {[ "sql" := "SELECT 1; DROP TABLE t;SELECT 2" ]} (start [])
     = (Ok {[ "error" := "Error executing statement: DROP TABLE t"
                         +:+ PyStr.nl +:+ "Error: syntax error" ]},
        mkEnv [] [EvDb "SELECT 1" (Rows "rows(SELECT 1)");
                  EvDb "DROP TABLE t" (DbRaise "syntax error")]).
Proof.
  assert (H1 : ({[ "sql" := "SELECT 1; DROP TABLE t" ]} : gmap string string)
               !! "sql" = Some "SELECT 1; DROP TABLE t")
    by (vm_compute; reflexivity).
  assert (H2 : ({[ "sql" := "SELECT 1; DROP TABLE t;SELECT 2" ]}
                : gmap string string) !! "sql"
               = Some ("SELECT 1; DROP TABLE t" +:+ ";" +:+ "SELECT 2"))
    by (vm_compute; reflexivity).
  assert (H3 : execute_node Stub.World Stub.db_chain_run
                            {[ "sql" := "SELECT 1; DROP TABLE t" ]} (start [])
               = (Ok {[ "error" := "Error executing statement: DROP TABLE t"
                                   +:+ PyStr.nl +:+ "Error: syntax error" ]},
                  mkEnv [] [EvDb "SELECT 1" (Rows "rows(SELECT 1)");
                            EvDb "DROP TABLE t" (DbRaise "syntax error")]))
    by (vm_compute; reflexivity).
  split; [exact H1|]. split; [exact H2|]. split; [exact H3|].
  destruct (execute_node_on_two_parts
              Stub.db_chain_run
              {[ "sql" := "SELECT 1; DROP TABLE t" ]}
              {[ "sql" := "SELECT 1; DROP TABLE t;SELECT 2" ]}
              "SELECT 1; DROP TABLE t" "SELECT 2" (start ([] : Stub.World))
              _ _ H1 H2 H3) as [Hfail _].
  apply Hfail.
  exists ("Error executing statement: DROP TABLE t"
          +:+ PyStr.nl +:+ "Error: syntax error").
  vm_compute. reflexivity.
Defined.

(** A state with a schema and no question. *)
Lemma missing_question_raises_before_any_call_witness :
  ({[ "schema" := "CREATE TABLE t (x INT)" ]} : gmap string string) !! "query"
  = None
  /\ run_outcome Stub.World Stub.llm_invoke Stub.db_chain_run Stub.get_table_info
                 {[ "schema" := "CREATE TABLE t (x INT)" ]} ["SELECT 1"]
     = Raise (KeyError "query").
Proof.
  assert (H : ({[ "schema" := "CREATE TABLE t (x INT)" ]} : gmap string string)
              !! "query" = None) by (vm_compute; reflexivity).
  split; [exact H|].
  apply (missing_question_raises_before_any_call
           Stub.llm_invoke Stub.db_chain_run Stub.get_table_info
           {[ "schema" := "CREATE TABLE t (x INT)" ]} ["SELECT 1"] H).
Defined.

(** A state with a question and a schema only, and a blank generation
    reply. *)
Lemma blank_generation_without_sql_raises_witness :
  ({[ "query" := "how many?"; "schema" := "CREATE TABLE t (x INT)" ]}
   : gmap string string) !! "query" = Some "how many?"
  /\ ({[ "query" := "how many?"; "schema" := "CREATE TABLE t (x INT)" ]}
      : gmap string string) !! "sql" = None
  /\ generation_reply
       (run_log Stub.World Stub.llm_invoke Stub.db_chain_run Stub.get_table_info
                {[ "query" := "how many?"; "schema" := "CREATE TABLE t (x INT)" ]}
                ["   "; "SELECT 3"])
     = Some "   "
  /\ PyStr.strip "   " = ""
  /\ run_outcome Stub.World Stub.llm_invoke Stub.db_chain_run Stub.get_table_info
                 {[ "query" := "how many?"; "schema" := "CREATE TABLE t (x INT)" ]}
                 ["   "; "SELECT 3"]
     = Raise (KeyError "sql").
Proof.
  assert (H1 : ({[ "query" := "how many?"; "schema" := "CREATE TABLE t (x INT)" ]}
                : gmap string string) !! "query" = Some "how many?")
    by (vm_compute; reflexivity).
  assert (H2 : ({[ "query" := "how many?"; "schema" := "CREATE TABLE t (x INT)" ]}
                : gmap string string) !! "sql" = None)
    by (vm_compute; reflexivity).
  assert (H3 : generation_reply
                 (run_log Stub.World Stub.llm_invoke Stub.db_chain_run
                          Stub.get_table_info
                          {[ "query" := "how many?";
                             "schema" := "CREATE TABLE t (x INT)" ]}
                          ["   "; "SELECT 3"])
               = Some "   ") by (vm_compute; reflexivity).
  assert (H4 : PyStr.strip "   " = "") by reflexivity.
  split; [exact H1|]. split; [exact H2|]. split; [exact H3|]. split; [exact H4|].
  apply (blank_generation_without_sql_raises
           Stub.llm_invoke Stub.db_chain_run Stub.get_table_info
           {[ "query" := "how many?"; "schema" := "CREATE TABLE t (x INT)" ]}
           ["   "; "SELECT 3"] "how many?" "   " H1 H2 H3 H4).
Defined.

(** The same two-key state, with a query the database accepts. *)
Lemma success_without_error_key_is_explained_witness :
  ({[ "query" := "how many?"; "schema" := "CREATE TABLE t (x INT)" ]}
   : gmap string string) !! "query" = Some "how many?"
  /\ ({[ "query" := "how many?"; "schema" := "CREATE TABLE t (x INT)" ]}
      : gmap string string) !! "error" = None
  /\ generation_reply
       (run_log Stub.World Stub.llm_invoke Stub.db_chain_run Stub.get_table_info
                {[ "query" := "how many?"; "schema" := "CREATE TABLE t (x INT)" ]}
                ["SELECT 1"; "It selects one."])
     = Some "SELECT 1"
  /\ PyStr.truthy (PyStr.strip "SELECT 1") = true
  /\ db_errors
       (run_log Stub.World Stub.llm_invoke Stub.db_chain_run Stub.get_table_info
                {[ "query" := "how many?"; "schema" := "CREATE TABLE t (x INT)" ]}
                ["SELECT 1"; "It selects one."])
     = []
  /\ activations
       (run_log Stub.World Stub.llm_invoke Stub.db_chain_run Stub.get_table_info
                {[ "query" := "how many?"; "schema" := "CREATE TABLE t (x INT)" ]}
                ["SELECT 1"; "It selects one."])
     = [generate_sql; run_query; explain_query].
Proof.
  assert (H1 : ({[ "query" := "how many?"; "schema" := "CREATE TABLE t (x INT)" ]}
                : gmap string string) !! "query" = Some "how many?")
    by (vm_compute; reflexivity).
  assert (H2 : ({[ "query" := "how many?"; "schema" := "CREATE TABLE t (x INT)" ]}
                : gmap string string) !! "error" = None)
    by (vm_compute; reflexivity).
  assert (H3 : generation_reply
                 (run_log Stub.World Stub.llm_invoke Stub.db_chain_run
                          Stub.get_table_info
                          {[ "query" := "how many?";
                             "schema" := "CREATE TABLE t (x INT)" ]}
                          ["SELECT 1"; "It selects one."])
               = Some "SELECT 1") by (vm_compute; reflexivity).
  assert (H4 : PyStr.truthy (PyStr.strip "SELECT 1") = true) by reflexivity.
  assert (H5 : db_errors
                 (run_log Stub.World Stub.llm_invoke Stub.db_chain_run
                          Stub.get_table_info
                          {[ "query" := "how many?";
                             "schema" := "CREATE TABLE t (x INT)" ]}
                          ["SELECT 1"; "It selects one."])
               = []) by (vm_compute; reflexivity).
  split; [exact H1|]. split; [exact H2|]. split; [exact H3|].
  split; [exact H4|]. split; [exact H5|].
  destruct (success_without_error_key_is_explained
              Stub.llm_invoke Stub.db_chain_run Stub.get_table_info
              {[ "query" := "how many?"; "schema" := "CREATE TABLE t (x INT)" ]}
              ["SELECT 1"; "It selects one."] "how many?" "SELECT 1"
              H1 H2 H3 H4 H5)
    as (st' & outs & reply & sch & _ & Hact & _).
  exact Hact.
Defined.

(** A turn of [main] in which nothing fails. *)
Lemma a_turn_without_failure_shows_the_repair_reply_witness :
  generation_reply (Stub.log "how many?" ["SELECT 1"; "SELECT 2"])
  = Some "SELECT 1"
  /\ PyStr.truthy (PyStr.strip "SELECT 1") = true
  /\ db_errors (Stub.log "how many?" ["SELECT 1"; "SELECT 2"]) = []
  /\ repair_reply (Stub.log "how many?" ["SELECT 1"; "SELECT 2"])
     = Some "SELECT 2"
  /\ PyStr.truthy (PyStr.strip "SELECT 2") = true
  /\ executed (Stub.log "how many?" ["SELECT 1"; "SELECT 2"])
     = statements (PyStr.strip "SELECT 1").
Proof.
  assert (H1 : generation_reply (Stub.log "how many?" ["SELECT 1"; "SELECT 2"])
               = Some "SELECT 1") by (vm_compute; reflexivity).
  assert (H2 : PyStr.truthy (PyStr.strip "SELECT 1") = true) by reflexivity.
  assert (H3 : db_errors (Stub.log "how many?" ["SELECT 1"; "SELECT 2"]) = [])
    by (vm_compute; reflexivity).
  assert (H4 : repair_reply (Stub.log "how many?" ["SELECT 1"; "SELECT 2"])
               = Some "SELECT 2") by (vm_compute; reflexivity).
  assert (H5 : PyStr.truthy (PyStr.strip "SELECT 2") = true) by reflexivity.
  split; [exact H1|]. split; [exact H2|]. split; [exact H3|].
  split; [exact H4|]. split; [exact H5|].
  destruct (a_turn_without_failure_shows_the_repair_reply
              Stub.llm_invoke Stub.db_chain_run Stub.get_table_info
              "how many?" ["SELECT 1"; "SELECT 2"] "SELECT 1" "SELECT 2"
              H1 H2 H3 H4 H5)
    as (st' & outs & sch & _ & Hex & _).
  exact Hex.
Defined.

(** Three lines, none a command: a question, a blank line and [QUIT] in
    capitals. *)
Lemma every_line_is_asked_until_input_ends_witness :
  Forall (fun line =>
            quit_typed (PyStr.strip line) = false
            /\ exit_typed (PyStr.strip line) = false)
         ["how many?"; ""; "QUIT"]
  /\ snd (fst (main Stub.World Stub.llm_invoke Stub.db_chain_run
                    Stub.get_table_info ""
                    ["how many?"; ""; "QUIT"] (start ["SELECT 1"])))
     = EndOfInput.
Proof.
  assert (H : Forall (fun line =>
                        quit_typed (PyStr.strip line) = false
                        /\ exit_typed (PyStr.strip line) = false)
                     ["how many?"; ""; "QUIT"])
    by (repeat constructor).
  split; [exact H|].
  apply (every_line_is_asked_until_input_ends
           Stub.llm_invoke Stub.db_chain_run Stub.get_table_info ""
           ["how many?"; ""; "QUIT"] ["SELECT 1"] H).
Defined.

(** A question, then [Exit] with a capital and padding, then more lines. *)
Lemma first_command_ends_the_session_witness :
  Forall (fun line =>
            quit_typed (PyStr.strip line) = false
            /\ exit_typed (PyStr.strip line) = false)
         ["how many?"]
  /\ quit_typed (PyStr.strip " Exit ") || exit_typed (PyStr.strip " Exit ")
     = true
  /\ snd (fst (main Stub.World Stub.llm_invoke Stub.db_chain_run
                    Stub.get_table_info ""
                    (["how many?"] ++ " Exit " :: ["and this?"; "quit"])
                    (start ["SELECT 1"])))
     = Exited.
Proof.
  assert (H1 : Forall (fun line =>
                         quit_typed (PyStr.strip line) = false
                         /\ exit_typed (PyStr.strip line) = false)
                      ["how many?"])
    by (repeat constructor).
  assert (H2 : quit_typed (PyStr.strip " Exit ")
               || exit_typed (PyStr.strip " Exit ") = true) by reflexivity.
  split; [exact H1|]. split; [exact H2|].
  apply (first_command_ends_the_session
           Stub.llm_invoke Stub.db_chain_run Stub.get_table_info ""
           ["how many?"] " Exit " ["and this?"; "quit"] ["SELECT 1"] H1 H2).
Defined.

(** A statement with padding and a closing semicolon. *)
Lemma single_statement_runs_as_in_playground_witness :
  ({[ "sql" := " SELECT 1; " ]} : gmap string string) !! "sql"
  = Some " SELECT 1; "
  /\ statements " SELECT 1; " = ["SELECT 1"]
  /\ ({[ "sql" := "SELECT 1" ]} : gmap string string) !! "sql" = Some "SELECT 1"
  /\ exists out w1,
       Stub.db_chain_run "SELECT 1" [] = (out, w1)
       /\ execute_node Stub.World Stub.db_chain_run
                       {[ "sql" := " SELECT 1; " ]} (start [])
          = (Ok match out with
                | Rows result => {[ "result" := result ]}
                | DbRaise msg =>
                    {[ "error" := "Error executing statement: " +:+ "SELECT 1"
                                  +:+ PyStr.nl +:+ "Error: " +:+ msg ]}
                end,
             mkEnv w1 [EvDb "SELECT 1" out]).
Proof.
  assert (H1 : ({[ "sql" := " SELECT 1; " ]} : gmap string string) !! "sql"
               = Some " SELECT 1; ") by (vm_compute; reflexivity).
  assert (H2 : statements " SELECT 1; " = ["SELECT 1"]) by reflexivity.
  assert (H3 : ({[ "sql" := "SELECT 1" ]} : gmap string string) !! "sql"
               = Some "SELECT 1") by (vm_compute; reflexivity).
  split; [exact H1|]. split; [exact H2|]. split; [exact H3|].
  destruct (single_statement_runs_as_in_playground
              Stub.db_chain_run
              {[ "sql" := " SELECT 1; " ]} {[ "sql" := "SELECT 1" ]}
              " SELECT 1; " "SELECT 1" (start ([] : Stub.World)) H1 H2 H3)
    as (out & w1 & Hdb & _ & Hex & _).
  exists out, w1. split; [exact Hdb | exact Hex].
Defined.
